(** * JMComicDownloader: a shallow embedding of [src/main.py]

    The plugin is an asynchronous Python class.  Every coroutine of the
    plugin is modelled as a computation of a small writer/exception monad:
    it produces the trace of the externally visible calls it made (replies,
    uploads, calls into the jmcomic library, log lines, spawned tasks) and
    either returns normally or raises a Python exception.

    The outside world (file system, jmcomic client and UI, bot transport) is
    a record of functions [Env]; every call into it is recorded in the trace
    before its result is used, so a call that raises is still visible.

    Python [str] values are modelled by Rocq [string] (their UTF-8 bytes):
    [endswith], concatenation and equality agree on code points and on
    their UTF-8 encodings. *)

From Stdlib Require Import String Ascii List Bool Arith Lia DecimalString.
Import ListNotations.
Open Scope string_scope.

(** ** Python values and exceptions *)

(** Exceptions the plugin can see.  [NameError n] is what Python raises
    when the unbound name [n] is evaluated; [ExtError m] stands for any
    exception raised by the jmcomic library, the file system or the bot
    transport, with [str(e) = m]. *)
Inductive exn : Type :=
| NameError (name : string)
| AttributeError (msg : string)
| ExtError (msg : string).

(** [str(e)] *)
Definition str_exn (e : exn) : string :=
  match e with
  | NameError n => "name '" ++ n ++ "' is not defined"
  | AttributeError m => m
  | ExtError m => m
  end.

(** Result of a Python call: a value, or a raised exception. *)
Inductive outcome (A : Type) : Type :=
| Ret (a : A)
| Raise (e : exn).
Arguments Ret {A} a.
Arguments Raise {A} e.

(** ** Python string helpers *)

(** [s.endswith(suf)] *)
Definition endswith (s suf : string) : bool :=
  let n := String.length s in
  let m := String.length suf in
  Nat.leb m n && String.eqb (substring (n - m) m s) suf.

(** Characters for which [str.isspace] holds, among the one-byte ones. *)
Definition py_isspace (c : ascii) : bool :=
  let n := nat_of_ascii c in
  (Nat.leb 9 n && Nat.leb n 13) || (Nat.leb 28 n && Nat.leb n 32).

Fixpoint lstrip (s : string) : string :=
  match s with
  | EmptyString => EmptyString
  | String c r => if py_isspace c then lstrip r else s
  end.

Definition rev_string (s : string) : string :=
  string_of_list_ascii (rev (list_ascii_of_string s)).

(** [s.strip()] *)
Definition py_strip (s : string) : string :=
  rev_string (lstrip (rev_string (lstrip s))).

(** [os.path.join(a, b)] for the POSIX flavour. *)
Definition os_path_join (a b : string) : string :=
  if String.prefix "/" b then b
  else if String.eqb a "" then b
  else if endswith a "/" then a ++ b
  else a ++ "/" ++ b.

(** [os.path.basename(p)]: the part after the last ['/']. *)
Fixpoint basename_acc (s acc : string) : string :=
  match s with
  | EmptyString => acc
  | String c r =>
      if Ascii.eqb c "/"%char then basename_acc r ""
      else basename_acc r (acc ++ String c EmptyString)
  end.
Definition basename (p : string) : string := basename_acc p "".

(** [str(n)] for a natural number. *)
Definition str_nat (n : nat) : string := NilZero.string_of_uint (Nat.to_uint n).

(** ** The library's result objects *)

(** [ui.search_cache(album_id)]: [.ok] and [.file_list]. *)
Record CacheResult := { cr_ok : bool; cr_file_list : list string }.

(** [dl_result.album]; [file_path] may be [None]. *)
Record Album := { al_file_path : option string }.

(** [client.download_album(album_id)]: [.ok], [.msg], [.album]. *)
Record DownloadResult :=
  { dl_ok : bool; dl_msg : string; dl_album : option Album }.

(** An element of [search_result.album_list]. *)
Record AlbumDetail :=
  { ad_id : string; ad_title : string; ad_author_list : list string }.

(** [client.search_album(query)]: [.ok], [.msg], [.album_list]. *)
Record SearchResult :=
  { sr_ok : bool; sr_msg : string; sr_album_list : list AlbumDetail }.

(** ** Messages, plugin state, environment *)

(** [MessageEvent]: the fields the plugin reads. *)
Record MessageEvent :=
  { message_type : string; group_id : string; user_id : string }.

(** Where a reply or a file goes. *)
Inductive target := Group (gid : string) | Private (uid : string).

Inductive level := Info | Warning | Error | Exception.

(** Externally visible actions, in the order they are issued. *)
Inductive action : Type :=
| ALog (lvl : level) (msg : string)
| AReply (tgt : target) (msg : string)
| AUpload (tgt : target) (file_path name : string)
| ASearchCache (album_id : string)
| ADownload (album_id : string)
| ASearchAlbum (query : string)
| ASpawn (album_id : string) (at_user : string).

(** The plugin object: [jm_option is not None] and [self.download_dir]. *)
Record Plugin := { jm_loaded : bool; download_dir : string }.

(** The outside world. *)
Record Env := {
  path_exists : string -> bool;                          (* os.path.exists *)
  ui_search_cache : string -> outcome CacheResult;       (* self.ui.search_cache *)
  client_download_album : string -> outcome DownloadResult;
  client_search_album : string -> outcome SearchResult;
  bot_send : target -> string -> outcome unit;           (* send_group/private_message *)
  bot_upload : target -> string -> string -> outcome unit (* upload_group/private_file *)
}.

(** ** The writer/exception monad *)

Definition M (A : Type) : Type := (list action * outcome A)%type.

Definition ret {A} (a : A) : M A := ([], Ret a).
Definition raise {A} (e : exn) : M A := ([], Raise e).

Definition bind {A B} (m : M A) (k : A -> M B) : M B :=
  match m with
  | (t, Ret a) => let (t', o) := k a in ((t ++ t')%list, o)
  | (t, Raise e) => (t, Raise e)
  end.

(** [try: m except Exception as e: h(e)] *)
Definition try_except {A} (m : M A) (h : exn -> M A) : M A :=
  match m with
  | (t, Ret a) => (t, Ret a)
  | (t, Raise e) => let (t', o) := h e in ((t ++ t')%list, o)
  end.

(** An external call: the action is issued, then its result is used. *)
Definition call {A} (a : action) (r : outcome A) : M A := ([a], r).

Definition log (l : level) (msg : string) : M unit := call (ALog l msg) (Ret tt).

Notation "x <- m ;; k" := (bind m (fun x => k))
  (at level 61, m at next level, right associativity).
Notation "m ;; k" := (bind m (fun _ : unit => k))
  (at level 61, right associativity).

Definition trace {A} (m : M A) : list action := fst m.
Definition result {A} (m : M A) : outcome A := snd m.

(** [name] evaluated while unbound: Python raises [NameError]. *)
Definition unbound_name {A} (name : string) : M A := raise (NameError name).

(** The newline character (Python's ["\n"]). *)
Definition nl : string := String (ascii_of_nat 10) EmptyString.

(** Truthiness of an [Optional[str]]: [None] and [""] are false. *)
Definition py_truthy (o : option string) : bool :=
  match o with
  | Some s => negb (String.eqb s "")
  | None => false
  end.

(** ** The plugin's coroutines *)

Section Plugin.

Variable env : Env.
Variable self : Plugin.

(** Target chosen by [send_reply] and [send_file_and_notify]:
    [event.message_type == "group"] selects the group. *)
Definition reply_target (event : MessageEvent) : target :=
  if String.eqb (message_type event) "group"
  then Group (group_id event) else Private (user_id event).

(** [at_user = f"[CQ:at,qq={event.user_id}]" if group else ""] *)
Definition at_user_of (event : MessageEvent) : string :=
  if String.eqb (message_type event) "group"
  then "[CQ:at,qq=" ++ user_id event ++ "]" else "".

(** [send_reply] (lines 95-102). *)
Definition send_reply (event : MessageEvent) (message : string) : M unit :=
  let tgt := reply_target event in
  call (AReply tgt message) (bot_send env tgt message).

(** [send_file_and_notify] (lines 295-321). *)
Definition send_file_and_notify (event : MessageEvent)
    (file_path album_id at_user : string) : M unit :=
  let file_name := basename file_path in
  try_except
    (let tgt := reply_target event in
     call (AUpload tgt file_path file_name)
          (bot_upload env tgt file_path file_name) ;;
     send_reply event
       (py_strip (at_user ++ " 漫画 " ++ album_id ++ " (" ++ file_name
                  ++ ") 已发送完成。")))
    (fun e =>
       log Error ("发送文件 " ++ file_name ++ " (ID: " ++ album_id
                  ++ ") 时失败: " ++ str_exn e) ;;
       send_reply event ("发送文件 " ++ album_id ++ " 时失败: " ++ str_exn e)).

(** [expected_pdf_path] (lines 237-238). *)
Definition expected_pdf_path (album_id : string) : string :=
  os_path_join (download_dir self) (album_id ++ ".pdf").

(** The cache probe (lines 236-248): the direct path, then
    [self.ui.search_cache] and the first file whose name ends with
    [f"{album_id}.pdf"]. *)
Definition cache_probe (album_id : string) : M (option string) :=
  let p := expected_pdf_path album_id in
  if path_exists env p then ret (Some p)
  else
    search_result <- call (ASearchCache album_id) (ui_search_cache env album_id) ;;
    if cr_ok search_result
    then ret (find (fun fp => endswith fp (album_id ++ ".pdf"))
                   (cr_file_list search_result))
    else ret None.

(** The replies of lines 253 and 259. *)
Definition cache_found_msg (album_id : string) : string :=
  "找到 " ++ album_id ++ " 的本地缓存，准备发送...".
Definition download_start_msg (album_id : string) : string :=
  "开始下载漫画 " ++ album_id ++ "，这可能需要一些时间...".

(** The body of the [try] of [process_download] (lines 231-271).
    Line 270 evaluates [f"下载 {album_id} 失败: {dl.msg}"], whose name [dl]
    is bound nowhere, and line 271 returns unconditionally. *)
Definition process_download_body (event : MessageEvent)
    (album_id at_user : string) : M unit :=
  log Info ("正在为 " ++ album_id ++ " 搜索本地缓存...") ;;
  pdf_path <- cache_probe album_id ;;
  let cache_miss :=
    log Info ("未找到 " ++ album_id ++ " 的缓存，开始下载...") ;;
    send_reply event (download_start_msg album_id) ;;
    dl_result <- call (ADownload album_id) (client_download_album env album_id) ;;
    dl <- unbound_name (A := DownloadResult) "dl" ;;
    send_reply event ("下载 " ++ album_id ++ " 失败: " ++ dl_msg dl) ;;
    ret tt in
  match pdf_path with
  | Some p =>
      if py_truthy pdf_path then
        log Info ("找到 " ++ album_id ++ " 的缓存: " ++ p) ;;
        send_reply event (cache_found_msg album_id) ;;
        send_file_and_notify event p album_id at_user
      else cache_miss
  | None => cache_miss
  end.

(** The message of the [except] of [process_download] (line 293). *)
Definition generic_error_msg (album_id : string) (e : exn) : string :=
  "处理 " ++ album_id ++ " 时发生严重错误: " ++ str_exn e.

(** [process_download] (lines 226-293). *)
Definition process_download (event : MessageEvent) (album_id at_user : string)
    : M unit :=
  try_except (process_download_body event album_id at_user)
    (fun e =>
       log Exception ("处理 " ++ album_id ++ " 时发生未知错误: " ++ str_exn e) ;;
       send_reply event (generic_error_msg album_id e)).

(** [f"{x}"] for an [Optional[str]]. *)
Definition py_str_opt (o : option string) : string :=
  match o with Some s => s | None => "None" end.

(** Lines 273-289 of [process_download], which follow the unconditional
    [return] of line 271 and are never executed: path resolution with the
    fallback to [expected_pdf_path], then delivery. *)
Definition resolve_and_deliver (event : MessageEvent) (album_id at_user : string)
    (dl_result : DownloadResult) : M unit :=
  final_pdf_path <- match dl_album dl_result with
                    | Some a => ret (al_file_path a)
                    | None => raise (AttributeError
                               "'NoneType' object has no attribute 'file_path'")
                    end ;;
  let deliver (path : string) :=
    log Info ("下载 " ++ album_id ++ " 完成，文件位于: " ++ path) ;;
    send_file_and_notify event path album_id at_user in
  let path_ok := match final_pdf_path with
                 | Some f => py_truthy final_pdf_path && endswith f ".pdf"
                 | None => false
                 end in
  if path_ok then deliver (py_str_opt final_pdf_path)
  else
    log Warning ("下载 " ++ album_id ++ " 成功，但 Jmcomic 返回的路径 '"
                 ++ py_str_opt final_pdf_path ++ "' 不符合预期。") ;;
    let fallback := expected_pdf_path album_id in
    if negb (path_exists env fallback) then
      log Error ("致命错误：PDF 文件 " ++ fallback ++ " 未在指定位置生成。") ;;
      send_reply event ("下载 " ++ album_id ++ " 成功，但 PDF 打包失败。请检查后台日志。")
    else deliver fallback.

End Plugin.

(** ** Observations on traces *)

(** The identifiers passed to [client.download_album], in order. *)
Fixpoint downloads (tr : list action) : list string :=
  match tr with
  | [] => []
  | ADownload a :: r => a :: downloads r
  | _ :: r => downloads r
  end.

(** The files handed to the transport, in order. *)
Fixpoint uploads (tr : list action) : list (target * string * string) :=
  match tr with
  | [] => []
  | AUpload t p n :: r => (t, p, n) :: uploads r
  | _ :: r => uploads r
  end.

(** The replies sent, in order. *)
Fixpoint replies (tr : list action) : list string :=
  match tr with
  | [] => []
  | AReply _ m :: r => m :: replies r
  | _ :: r => replies r
  end.

(** The identifiers passed to [self.ui.search_cache], in order. *)
Fixpoint index_queries (tr : list action) : list string :=
  match tr with
  | [] => []
  | ASearchCache a :: r => a :: index_queries r
  | _ :: r => index_queries r
  end.

(** A transport on which every message and every file goes through. *)
Definition transport_ok (env : Env) : Prop :=
  (forall t m, bot_send env t m = Ret tt) /\
  (forall t p n, bot_upload env t p n = Ret tt).

(** ** The [/jm] dispatcher *)

(** Python's [str] is a sequence of code points; the dispatcher's regular
    expression [\d+] matches the Unicode decimal digits and [str.strip]
    removes the Unicode white space.  The dispatcher is therefore embedded
    over an arbitrary character type with those two classes, and [encode]
    turns an extracted token into the identifier string handed to the task. *)
Section Dispatcher.

Variable Char : Type.
Variable is_digit : Char -> bool.
Variable is_space : Char -> bool.
Variable encode : list Char -> string.

Fixpoint lstrip_by (s : list Char) : list Char :=
  match s with
  | [] => []
  | c :: r => if is_space c then lstrip_by r else s
  end.

(** [s.strip()] *)
Definition strip_chars (s : list Char) : list Char :=
  rev (lstrip_by (rev (lstrip_by s))).

(** [re.findall(r"\d+", s)]: the maximal runs of digits, left to right;
    [cur] is the run being read, reversed. *)
Fixpoint findall_digits_from (s cur : list Char) : list (list Char) :=
  match s with
  | [] => match cur with [] => [] | _ => [rev cur] end
  | c :: r =>
      if is_digit c then findall_digits_from r (c :: cur)
      else match cur with
           | [] => findall_digits_from r []
           | _ => rev cur :: findall_digits_from r []
           end
  end.

Definition findall_digits (s : list Char) : list (list Char) :=
  findall_digits_from s [].

(** [for album_id in album_ids: asyncio.create_task(self.process_download(...))]:
    each task is created and not awaited, so only its creation is seen here. *)
Fixpoint spawn_all (album_ids : list string) (at_user : string) : M unit :=
  match album_ids with
  | [] => ret tt
  | album_id :: rest =>
      call (ASpawn album_id at_user) (Ret tt) ;;
      spawn_all rest at_user
  end.

(** The acknowledgement of line 124. *)
Definition ack_msg (at_user : string) (n : nat) : string :=
  py_strip (at_user ++ " 收到！准备处理 " ++ str_nat n ++ " 个漫画 ID...").

(** [handle_jm_command] (lines 104-128); [group1] is [match.group(1)]. *)
Definition handle_jm_command (env : Env) (self : Plugin) (event : MessageEvent)
    (group1 : list Char) : M unit :=
  if negb (jm_loaded self) then
    send_reply env event "错误：jmcomic 库未正确安装，请联系管理员。"
  else
    let text_content := strip_chars group1 in
    let album_ids := findall_digits text_content in
    let at_user := at_user_of event in
    match album_ids with
    | [] => send_reply env event (py_strip (at_user ++ " 请提供至少一个有效的漫画 ID。"))
    | _ =>
        send_reply env event (ack_msg at_user (length album_ids)) ;;
        spawn_all (map encode album_ids) at_user
    end.

End Dispatcher.

(** ** The [/jm_search] handler *)

Definition rule_line : string := "--------------------------" ++ nl.

(** One result block (lines 212-216). *)
Definition search_block (album : AlbumDetail) : string :=
  let authors := match ad_author_list album with
                 | [] => "N/A"
                 | l => String.concat ", " l
                 end in
  "ID: " ++ ad_id album ++ nl ++
  "标题: " ++ ad_title album ++ nl ++
  "作者: " ++ authors ++ nl ++
  rule_line.

Definition search_hint : string := "使用 /jm [ID] 来下载。".

(** The header (lines 208-209). *)
Definition search_header (search_query : string) (n : nat) : string :=
  "搜索 '" ++ search_query ++ "' 的结果 (前 " ++ str_nat n ++ " 条):" ++ nl ++ rule_line.

(** [reply_msg] as built by lines 207-218. *)
Definition format_search (search_query : string) (album_list : list AlbumDetail)
    : string :=
  let max_results := 5 in
  let shown := firstn max_results album_list in
  let reply_msg :=
    fold_left (fun acc album => acc ++ search_block album) shown
              (search_header search_query (length shown)) in
  reply_msg ++ search_hint.

Section Search.

Variable env : Env.
Variable self : Plugin.

(** [handle_jm_search] (lines 171-224); [group1] is [match.group(1)]. *)
Definition handle_jm_search (event : MessageEvent) (group1 : string) : M unit :=
  if negb (jm_loaded self) then
    send_reply env event "错误：jmcomic 库未正确安装，请联系管理员。"
  else
    let search_query := py_strip group1 in
    if String.eqb search_query "" then
      send_reply env event "请输入搜索关键词。用法: /jm_search [关键词]"
    else
      let at_user := at_user_of event in
      send_reply env event (py_strip (at_user ++ " 正在搜索: '" ++ search_query ++ "'...")) ;;
      try_except
        (search_result <- call (ASearchAlbum search_query)
                               (client_search_album env search_query) ;;
         if negb (sr_ok search_result) then
           send_reply env event (py_strip (at_user ++ " 搜索失败: " ++ sr_msg search_result))
         else
           match sr_album_list search_result with
           | [] => send_reply env event
                     (py_strip (at_user ++ " 未找到与 '" ++ search_query ++ "' 相关的结果。"))
           | album_list =>
               send_reply env event
                 (py_strip (at_user ++ nl ++ format_search search_query album_list))
           end)
        (fun e =>
           log Exception ("搜索 '" ++ search_query ++ "' 时发生未知错误: " ++ str_exn e) ;;
           send_reply env event (py_strip (at_user ++ " 搜索时出错: " ++ str_exn e))).

End Search.

(** ** A writer/exception monad over any kind of action *)

(** [__init__] and [handle_jm_status] issue calls that are not among
    [action]; they are embedded in the same monad over their own actions. *)
Definition MW (Act A : Type) : Type := (list Act * outcome A)%type.

Definition retW {Act A} (a : A) : MW Act A := ([], Ret a).

Definition bindW {Act A B} (m : MW Act A) (k : A -> MW Act B) : MW Act B :=
  match m with
  | (t, Ret a) => let (t', o) := k a in ((t ++ t')%list, o)
  | (t, Raise e) => (t, Raise e)
  end.

Definition try_exceptW {Act A} (m : MW Act A) (h : exn -> MW Act A) : MW Act A :=
  match m with
  | (t, Ret a) => (t, Ret a)
  | (t, Raise e) => let (t', o) := h e in ((t ++ t')%list, o)
  end.

Definition callW {Act A} (a : Act) (r : outcome A) : MW Act A := ([a], r).

Notation "x <-- m ;; k" := (bindW m (fun x => k))
  (at level 61, m at next level, right associativity).

(** ** [__init__] (lines 40-93) *)

(** [JmOption.account] *)
Record JmAccount := { acc_username : option string; acc_password : option string }.

(** The fields of [JmOption] that [__init__] reads or writes. *)
Record JmOption := {
  jo_dir_download : string;            (* option.dir.download *)
  jo_album_name_format : string;       (* option.dir.album_name_format *)
  jo_pdf_filename : string;            (* option.plugin.pdf_packer.filename *)
  jo_pp_plugin : string;               (* option.download.post_processor.plugin *)
  jo_pp_impl : string;                 (* option.download.post_processor.impl *)
  jo_use_meta_file : bool;             (* option.download.misc.use_meta_file *)
  jo_account : JmAccount }.

(** The calls of [__init__]. *)
Inductive init_action : Type :=
| IMakedirs (path : string)
| ILoadOption (path : string)
| INewUI (option : JmOption)
| INewClient (option : JmOption)
| ILog (lvl : level) (msg : string).

(** The world [__init__] sees. *)
Record InitEnv := {
  ie_makedirs : string -> outcome unit;          (* os.makedirs(p, exist_ok=True), p <> "" *)
  ie_abspath : string -> string;                 (* os.path.abspath *)
  ie_load : string -> outcome JmOption;          (* JmOption.load *)
  ie_new_ui : JmOption -> outcome unit;          (* JmcomicUI(option) *)
  ie_new_client : JmOption -> outcome unit }.    (* jm_client_new(option) *)

(** [self.config]: the plugin's configuration, string values by key. *)
Definition Config := list (string * string).

(** [config.get(key)]: [None] when the key is absent. *)
Fixpoint cfg_lookup (config : Config) (key : string) : option string :=
  match config with
  | [] => None
  | (k, v) :: rest => if String.eqb k key then Some v else cfg_lookup rest key
  end.

(** [config.get(key, default)] *)
Definition cfg_get (config : Config) (key default : string) : string :=
  match cfg_lookup config key with Some v => v | None => default end.

(** The part of [p] up to and including its last ['/']. *)
Fixpoint dirname_head (p : string) : string :=
  match p with
  | EmptyString => EmptyString
  | String c r =>
      let h := dirname_head r in
      if String.eqb h "" then (if Ascii.eqb c "/"%char then "/" else "")
      else String c h
  end.

Fixpoint lstrip_slash (s : string) : string :=
  match s with
  | EmptyString => EmptyString
  | String c r => if Ascii.eqb c "/"%char then lstrip_slash r else s
  end.

Fixpoint all_slashes (s : string) : bool :=
  match s with
  | EmptyString => true
  | String c r => Ascii.eqb c "/"%char && all_slashes r
  end.

(** [os.path.dirname(p)] (posixpath): the head up to the last ['/'], with
    its trailing slashes removed unless it is made of slashes only. *)
Definition dirname (p : string) : string :=
  let head := dirname_head p in
  if negb (String.eqb head "") && negb (all_slashes head)
  then rev_string (lstrip_slash (rev_string head))
  else head.

(** [os.makedirs(p, exist_ok=True)]: on [""] Python raises
    [FileNotFoundError] whatever the disk holds. *)
Definition py_makedirs (ienv : InitEnv) (p : string) : MW init_action unit :=
  callW (IMakedirs p)
    (if String.eqb p "" then Raise (ExtError "[Errno 2] No such file or directory: ''")
     else ie_makedirs ienv p).

Definition ilog (l : level) (msg : string) : MW init_action unit :=
  callW (ILog l msg) (Ret tt).

Definition default_config_path : string := "data/plugin_data/JMComicDownloader/jmcomic.yml".
Definition default_download_dir : string := "data/plugin_data/JMComicDownloader/pdf".

(** Steps 3.1-3.3: the overrides applied to the loaded option. *)
Definition set_dir_download (o : JmOption) (d : string) : JmOption :=
  {| jo_dir_download := d; jo_album_name_format := jo_album_name_format o;
     jo_pdf_filename := jo_pdf_filename o; jo_pp_plugin := jo_pp_plugin o;
     jo_pp_impl := jo_pp_impl o; jo_use_meta_file := jo_use_meta_file o;
     jo_account := jo_account o |}.

Definition set_pdf_packer (o : JmOption) : JmOption :=
  {| jo_dir_download := jo_dir_download o; jo_album_name_format := jo_album_name_format o;
     jo_pdf_filename := jo_pdf_filename o; jo_pp_plugin := "pdf_packer";
     jo_pp_impl := "JmPdfPacker"; jo_use_meta_file := true;
     jo_account := jo_account o |}.

Definition set_naming (o : JmOption) : JmOption :=
  {| jo_dir_download := jo_dir_download o; jo_album_name_format := "${album_id}";
     jo_pdf_filename := "${album_dir_name}.pdf"; jo_pp_plugin := jo_pp_plugin o;
     jo_pp_impl := jo_pp_impl o; jo_use_meta_file := jo_use_meta_file o;
     jo_account := jo_account o |}.

Definition set_account (o : JmOption) (u p : option string) : JmOption :=
  {| jo_dir_download := jo_dir_download o; jo_album_name_format := jo_album_name_format o;
     jo_pdf_filename := jo_pdf_filename o; jo_pp_plugin := jo_pp_plugin o;
     jo_pp_impl := jo_pp_impl o; jo_use_meta_file := jo_use_meta_file o;
     jo_account := {| acc_username := u; acc_password := p |} |}.

(** [__init__]; [jm_available] is [jm_option is not None].  The result is
    the plugin's state and the option shared by the UI and the client, or
    [None] when the plugin returned early. *)
Definition plugin_init (jm_available : bool) (config : Config) (ienv : InitEnv)
    : MW init_action (option (Plugin * JmOption)) :=
  if negb jm_available then
    _ <-- ilog Error "jmcomic 库未加载，插件无法启动" ;; retW None
  else
    let config_path := cfg_get config "jm_config_path" default_config_path in
    let config_dir := dirname config_path in
    _ <-- py_makedirs ienv config_dir ;;
    _ <-- ilog Info ("将使用 jmcomic 配置文件: " ++ ie_abspath ienv config_path) ;;
    loaded <-- callW (ILoadOption config_path) (ie_load ienv config_path) ;;
    let download_dir := cfg_get config "download_dir" default_download_dir in
    _ <-- py_makedirs ienv download_dir ;;
    let o1 := set_dir_download loaded download_dir in
    _ <-- ilog Info ("漫画 PDF 将下载到: " ++ ie_abspath ienv download_dir) ;;
    let o2 := set_naming (set_pdf_packer o1) in
    _ <-- ilog Info "PDF 文件将被命名为 [ID].pdf (例如: 350234.pdf)" ;;
    let username := cfg_lookup config "username" in
    let password := cfg_lookup config "password" in
    o3 <-- (if py_truthy username && py_truthy password then
              _ <-- ilog Info ("已从插件配置加载用户名: " ++ py_str_opt username) ;;
              retW (set_account o2 username password)
            else if py_truthy (acc_username (jo_account o2)) then
              _ <-- ilog Info ("将使用 jmcomic.yml 中的用户名: "
                               ++ py_str_opt (acc_username (jo_account o2))) ;;
              retW o2
            else
              _ <-- ilog Warning "未配置 jmcomic 用户名和密码，将以未登录状态运行。" ;;
              retW o2) ;;
    _ <-- callW (INewUI o3) (ie_new_ui ienv o3) ;;
    _ <-- callW (INewClient o3) (ie_new_client ienv o3) ;;
    _ <-- ilog Info "JMComicDownloader 插件已加载，客户端已初始化。" ;;
    retW (Some ({| jm_loaded := true; download_dir := download_dir |}, o3)).

(** ** [handle_jm_status] (lines 130-169) *)

(** [client.check_login()]: [.is_login], [.username], [.email], [.vip],
    [.msg], each field as its [str()]. *)
Record LoginResult := {
  lr_is_login : bool; lr_username : string; lr_email : string;
  lr_vip : string; lr_msg : string }.

(** The calls of [handle_jm_status]: those of [action], and the login check. *)
Inductive status_action : Type :=
| SBase (a : action)
| SCheckLogin.

Definition liftM {A} (m : M A) : MW status_action A := (map SBase (fst m), snd m).

(** The message of lines 150-163. *)
Definition login_msg (login_result : LoginResult) : string :=
  if lr_is_login login_result then
    "登录成功！" ++ nl ++
    "用户: " ++ lr_username login_result ++ nl ++
    "Email: " ++ lr_email login_result ++ nl ++
    "VIP: " ++ lr_vip login_result
  else
    "未登录。" ++ nl ++
    "信息: " ++ lr_msg login_result ++ nl ++
    "请检查 config.yml 中的 'username' 和 'password' 配置，" ++
    "或 jmcomic.yml 中的 cookies 是否有效。".

(** [handle_jm_status]; [check_login] is what [self.client.check_login()]
    returns or raises. *)
Definition handle_jm_status (env : Env) (self : Plugin)
    (check_login : outcome LoginResult) (event : MessageEvent) : MW status_action unit :=
  if negb (jm_loaded self) then
    liftM (send_reply env event "错误：jmcomic 库未正确安装。")
  else
    let at_user := at_user_of event in
    _ <-- liftM (send_reply env event (py_strip (at_user ++ " 正在检查登录状态..."))) ;;
    try_exceptW
      (login_result <-- callW SCheckLogin check_login ;;
       liftM (send_reply env event (py_strip (at_user ++ " " ++ login_msg login_result))))
      (fun e =>
         _ <-- liftM (log Exception ("检查登录状态时出错: " ++ str_exn e)) ;;
         liftM (send_reply env event (py_strip (at_user ++ " 检查登录状态时出错: " ++ str_exn e)))).

(** The replies among the calls of [handle_jm_status]. *)
Definition status_replies (tr : list status_action) : list string :=
  replies (flat_map (fun a => match a with SBase b => [b] | SCheckLogin => [] end) tr).

(** ** Sample inputs *)

(** A private chat with user 10001. *)
Definition sample_event : MessageEvent :=
  {| message_type := "private"; group_id := ""; user_id := "10001" |}.

Definition sample_plugin : Plugin := {| jm_loaded := true; download_dir := "/out" |}.

(** A world whose disk holds [files], whose index answers [index], whose
    [download_album] answers [dl] and whose transport always works. *)
Definition sample_env (files : list string) (index : CacheResult)
    (dl : outcome DownloadResult) (search : outcome SearchResult) : Env :=
  {| path_exists := fun p => existsb (String.eqb p) files;
     ui_search_cache := fun _ => Ret index;
     client_download_album := fun _ => dl;
     client_search_album := fun _ => search;
     bot_send := fun _ _ => Ret tt;
     bot_upload := fun _ _ _ => Ret tt |}.

(** ** C1, C2, C3: the post-fetch steps *)

(** A [download_album] failure for 350234. *)
Definition dl_failed : DownloadResult :=
  {| dl_ok := false; dl_msg := "album 350234 not found"; dl_album := None |}.

(** A [download_album] success with the packed PDF at [path]. *)
Definition dl_succeeded (path : option string) : DownloadResult :=
  {| dl_ok := true; dl_msg := "ok"; dl_album := Some {| al_file_path := path |} |}.

Definition index_miss : CacheResult := {| cr_ok := false; cr_file_list := [] |}.

Definition no_search : outcome SearchResult := Raise (ExtError "unused").

(** The ASCII decimal digits (the one-byte characters matched by [\d]). *)
Definition ascii_isdigit (c : ascii) : bool :=
  let n := nat_of_ascii c in Nat.leb 48 n && Nat.leb n 57.

(** The same world with a transport that rejects every message. *)
Definition transport_down_env (files : list string) (index : CacheResult)
    (dl : outcome DownloadResult) : Env :=
  {| path_exists := fun p => existsb (String.eqb p) files;
     ui_search_cache := fun _ => Ret index;
     client_download_album := fun _ => dl;
     client_search_album := fun _ => no_search;
     bot_send := fun _ _ => Raise (ExtError "transport down");
     bot_upload := fun _ _ _ => Raise (ExtError "transport down") |}.

(** Seven search results, numbered 1 to 7. *)
Definition sample_album (n : nat) : AlbumDetail :=
  {| ad_id := str_nat n; ad_title := "title " ++ str_nat n; ad_author_list := ["author"] |}.

Definition seven_albums : SearchResult :=
  {| sr_ok := true; sr_msg := ""; sr_album_list := map sample_album (seq 1 7) |}.

(** A jmcomic.yml holding an account, loaded from any path; a disk where
    every [makedirs] succeeds. *)
Definition sample_option : JmOption :=
  {| jo_dir_download := "yml_dir"; jo_album_name_format := "${album_title}";
     jo_pdf_filename := "${album_title}.pdf"; jo_pp_plugin := "zip";
     jo_pp_impl := "Zip"; jo_use_meta_file := false;
     jo_account := {| acc_username := Some "yml_user"; acc_password := Some "yml_pw" |} |}.

Definition sample_ienv : InitEnv :=
  {| ie_makedirs := fun _ => Ret tt; ie_abspath := fun p => "/bot/" ++ p;
     ie_load := fun _ => Ret sample_option;
     ie_new_ui := fun _ => Ret tt; ie_new_client := fun _ => Ret tt |}.

(** A plugin configuration with a download directory and a user name but
    no password. *)
Definition sample_config : Config := [("download_dir", "/out"); ("username", "alice")].

(** Whether a string starts, resp. ends, with a character that
    [str.strip] keeps. *)
Definition first_nonspace (s : string) : bool :=
  match s with String c _ => negb (py_isspace c) | EmptyString => false end.

Definition last_nonspace (s : string) : bool := first_nonspace (rev_string s).

(** Two search results. *)
Definition two_albums : SearchResult :=
  {| sr_ok := true; sr_msg := ""; sr_album_list := map sample_album (seq 1 2) |}.


Definition login_failed : LoginResult :=
  {| lr_is_login := false; lr_username := ""; lr_email := "";
     lr_vip := ""; lr_msg := "cookies expired" |}.

(** The chats a trace writes to: the targets of its replies and uploads. *)
Fixpoint targets (tr : list action) : list target :=
  match tr with
  | [] => []
  | AReply t _ :: r => t :: targets r
  | AUpload t _ _ :: r => t :: targets r
  | _ :: r => targets r
  end.

(** The number of maximal runs of digits in [s]: the digits not preceded
    by a digit ([prev] tells whether the character before [s] is one). *)
Fixpoint run_starts {Char : Type} (is_digit : Char -> bool) (prev : bool) (s : list Char)
    : nat :=
  match s with
  | [] => 0
  | c :: r => (if is_digit c && negb prev then 1 else 0) + run_starts is_digit (is_digit c) r
  end.

(** * Properties *)

(** ** Auxiliary lemmas *)

Lemma expected_pdf_path_truthy (self : Plugin) (album_id : string) :
  py_truthy (Some (expected_pdf_path self album_id)) = true.
Proof.
  unfold py_truthy, expected_pdf_path, os_path_join.
  destruct (String.prefix "/" (album_id ++ ".pdf")),
           (String.eqb (download_dir self) ""),
           (endswith (download_dir self) "/");
    simpl; destruct album_id; simpl; try reflexivity;
    destruct (download_dir self); reflexivity.
Qed.

(** [find] returns the first element satisfying the test. *)
Lemma find_first (f : string -> bool) (l : list string) (x : string) :
  find f l = Some x <->
  exists pre post, l = (pre ++ x :: post)%list /\ f x = true /\ Forall (fun y => f y = false) pre.
Proof.
  induction l as [|a l IH]; simpl.
  - split; [discriminate|]. intros (pre & post & E & _). destruct pre; discriminate.
  - destruct (f a) eqn:Fa; split.
    + intros [= <-]. exists [], l. auto.
    + intros (pre & post & E & Fx & Hpre). destruct pre as [|b pre].
      * injection E as -> _. reflexivity.
      * injection E as -> _. inversion Hpre; congruence.
    + intros Hx. apply IH in Hx as (pre & post & -> & Fx & Hpre).
      exists (a :: pre), post. auto.
    + intros (pre & post & E & Fx & Hpre). apply IH. destruct pre as [|b pre].
      * injection E as -> _. congruence.
      * injection E as -> E. inversion Hpre; subst. eauto.
Qed.

Lemma find_none (f : string -> bool) (l : list string) :
  find f l = None <-> Forall (fun y => f y = false) l.
Proof.
  induction l as [|a l IH]; simpl.
  - split; auto.
  - destruct (f a) eqn:Fa; split; intros H.
    + discriminate.
    + inversion H; congruence.
    + constructor; [exact Fa | apply IH, H].
    + inversion H; apply IH; assumption.
Qed.

(** Case analysis on the results of the external calls. *)
Ltac split_outcomes :=
  repeat match goal with
         | |- context [match ?x with Ret _ => _ | Raise _ => _ end] =>
             let E := fresh "E" in destruct x eqn:E
         end; simpl.

Ltac unfold_plugin :=
  unfold process_download, process_download_body, cache_probe,
    send_file_and_notify, send_reply, try_except, unbound_name, log, call,
    raise, ret, bind, trace, result in *.

(** ** C6: the cache probe *)

(** C6. The cache probe first checks the exact path [<id>.pdf] in the
    output directory and returns it, without querying the index, when it
    exists.  Otherwise it queries the index once, and on an ok result
    returns the first file of the list whose name ends with [<id>.pdf]
    (none if no file does); on a not-ok result it reports not-found. *)
Theorem C6_cache_probe_order (env : Env) (self : Plugin) (album_id : string) :
  (path_exists env (expected_pdf_path self album_id) = true ->
   cache_probe env self album_id = ([], Ret (Some (expected_pdf_path self album_id)))) /\
  (forall r, path_exists env (expected_pdf_path self album_id) = false ->
   ui_search_cache env album_id = Ret r ->
   trace (cache_probe env self album_id) = [ASearchCache album_id] /\
   (cr_ok r = false -> result (cache_probe env self album_id) = Ret None) /\
   (cr_ok r = true ->
    (forall fp, result (cache_probe env self album_id) = Ret (Some fp) <->
       exists pre post, cr_file_list r = (pre ++ fp :: post)%list /\
         endswith fp (album_id ++ ".pdf") = true /\
         Forall (fun y => endswith y (album_id ++ ".pdf") = false) pre) /\
    (result (cache_probe env self album_id) = Ret None <->
       Forall (fun y => endswith y (album_id ++ ".pdf") = false) (cr_file_list r)))).
Proof.
  unfold cache_probe, call, bind, ret, trace, result. split.
  - intros H. rewrite H. reflexivity.
  - intros r H Hr. rewrite H, Hr. simpl.
    split; [destruct (cr_ok r); reflexivity|]. split.
    + intros Ho. rewrite Ho. reflexivity.
    + intros Ho. rewrite Ho. simpl. split.
      * intros fp. etransitivity;
          [|apply (find_first (fun y => endswith y (album_id ++ ".pdf")))].
        split; [intros [= E]; exact E | intros ->; reflexivity].
      * etransitivity;
          [|apply (find_none (fun y => endswith y (album_id ++ ".pdf")))].
        split; [intros [= E]; exact E | intros ->; reflexivity].
Qed.

(** ** C4: a cache hit never fetches *)

(** C4. When [<id>.pdf] exists in the output directory, the task for [id]
    never calls [download_album] (nor the index search), whatever the
    transport does; with a working transport it delivers exactly that file.
    A second [/jm <id>] after the file persisted from a first run is such a
    run, so it performs no second fetch. *)
Theorem C4_cache_hit_no_fetch (env : Env) (self : Plugin) (event : MessageEvent)
    (album_id at_user : string) :
  path_exists env (expected_pdf_path self album_id) = true ->
  downloads (trace (process_download env self event album_id at_user)) = [] /\
  index_queries (trace (process_download env self event album_id at_user)) = [] /\
  (transport_ok env ->
   uploads (trace (process_download env self event album_id at_user)) =
     [(reply_target event, expected_pdf_path self album_id,
       basename (expected_pdf_path self album_id))]).
Proof.
  intros H.
  unfold_plugin. rewrite H, expected_pdf_path_truthy. simpl.
  split; [|split]; [split_outcomes; reflexivity .. |].
  intros [Hs Hu]. rewrite !Hs, !Hu. reflexivity.
Qed.

(** ** C5: a full miss fetches exactly once *)

(** C5. When [<id>.pdf] is not in the output directory and the index
    search for [id] returns without a matching entry, the task calls
    [download_album] at most once, only ever with [id], and exactly once
    when its "download starting" reply goes through. *)
Theorem C5_miss_fetches_once (env : Env) (self : Plugin) (event : MessageEvent)
    (album_id at_user : string) (r : CacheResult) :
  path_exists env (expected_pdf_path self album_id) = false ->
  ui_search_cache env album_id = Ret r ->
  (if cr_ok r then find (fun fp => endswith fp (album_id ++ ".pdf")) (cr_file_list r)
   else None) = None ->
  (downloads (trace (process_download env self event album_id at_user)) = [] \/
   downloads (trace (process_download env self event album_id at_user)) = [album_id]) /\
  (bot_send env (reply_target event) (download_start_msg album_id) = Ret tt ->
   downloads (trace (process_download env self event album_id at_user)) = [album_id]).
Proof.
  intros H Hr Hm.
  unfold_plugin. rewrite H, Hr. simpl.
  destruct (cr_ok r); simpl in Hm |- *; [rewrite Hm|]; simpl;
    (split; [split_outcomes; auto|intros Hs; rewrite Hs; simpl; split_outcomes; auto]).
Qed.

(** ** After a fetch, every task ends in [NameError] *)

(** On a full cache miss, whatever [download_album] returns, line 270
    raises [NameError] on [dl], and the [except] of line 291 answers with
    the generic error: no path resolution and no delivery ever happen. *)
Lemma miss_fetch_ends_in_name_error (env : Env) (self : Plugin)
    (event : MessageEvent) (album_id at_user : string)
    (r : CacheResult) (dl_result : DownloadResult) :
  path_exists env (expected_pdf_path self album_id) = false ->
  ui_search_cache env album_id = Ret r ->
  (if cr_ok r then find (fun fp => endswith fp (album_id ++ ".pdf")) (cr_file_list r)
   else None) = None ->
  bot_send env (reply_target event) (download_start_msg album_id) = Ret tt ->
  client_download_album env album_id = Ret dl_result ->
  trace (process_download env self event album_id at_user) =
    [ALog Info ("正在为 " ++ album_id ++ " 搜索本地缓存...");
     ASearchCache album_id;
     ALog Info ("未找到 " ++ album_id ++ " 的缓存，开始下载...");
     AReply (reply_target event) (download_start_msg album_id);
     ADownload album_id;
     ALog Exception ("处理 " ++ album_id ++ " 时发生未知错误: " ++ str_exn (NameError "dl"));
     AReply (reply_target event) (generic_error_msg album_id (NameError "dl"))].
Proof.
  intros H Hr Hm Hs Hd.
  unfold_plugin. rewrite H, Hr. simpl.
  destruct (cr_ok r); simpl in Hm |- *; [rewrite Hm|]; simpl;
    rewrite Hs; simpl; rewrite Hd; simpl; split_outcomes; reflexivity.
Qed.



(** ** C1, C2, C3: the steps after the fetch *)

(** C1 (evaluated at a failing input).  For 350234, absent from the disk
    and from the index, [download_album] reports [ok=false] with message
    "album 350234 not found".  No file is delivered, but the only failure
    reply is the generic one carrying Python's [NameError] on [dl], not the
    outcome's message. *)
Theorem C1_fetch_failure_reply :
  let tr := trace (process_download
                     (sample_env [] index_miss (Ret dl_failed) no_search)
                     sample_plugin sample_event "350234" "") in
  uploads tr = [] /\
  replies tr = [download_start_msg "350234";
                "处理 350234 时发生严重错误: name 'dl' is not defined"] /\
  ~ In (dl_msg dl_failed) (replies tr).
Proof.
  vm_compute. split; [reflexivity|split; [reflexivity|]].
  intros [H|[H|[]]]; discriminate H.
Qed.

(** C2 (evaluated at the scenario's input).  For 350234, absent from the
    disk and from the index, [download_album] returns [ok=true] with the
    path /out/350234.pdf.  The task delivers nothing and sends no
    completion reply, only the generic [NameError] reply; the unreachable
    lines 273-289 would have delivered that path. *)
Theorem C2_fetch_success_not_delivered :
  let tr := trace (process_download
                     (sample_env [] index_miss (Ret (dl_succeeded (Some "/out/350234.pdf")))
                        no_search)
                     sample_plugin sample_event "350234" "") in
  uploads tr = [] /\
  replies tr = [download_start_msg "350234";
                "处理 350234 时发生严重错误: name 'dl' is not defined"] /\
  uploads (trace (resolve_and_deliver
                    (sample_env [] index_miss (Ret (dl_succeeded (Some "/out/350234.pdf")))
                       no_search)
                    sample_plugin sample_event "350234" ""
                    (dl_succeeded (Some "/out/350234.pdf")))) =
    [(Private "10001", "/out/350234.pdf", "350234.pdf")].
Proof. vm_compute. auto. Qed.

(** C3 (evaluated at a failing input).  For 350234, absent from the disk
    and from the index, [download_album] returns [ok=true] with the path
    /out/350234.zip, which lacks the .pdf extension, and /out/350234.pdf
    does not exist.  The task delivers nothing but never sends the
    packaging-failure reply: it sends the generic [NameError] reply.  The
    unreachable lines 273-289 would have sent the packaging-failure reply. *)
Theorem C3_fallback_not_reached :
  let env := sample_env [] index_miss (Ret (dl_succeeded (Some "/out/350234.zip")))
               no_search in
  let tr := trace (process_download env sample_plugin sample_event "350234" "") in
  uploads tr = [] /\
  replies tr = [download_start_msg "350234";
                "处理 350234 时发生严重错误: name 'dl' is not defined"] /\
  replies (trace (resolve_and_deliver env sample_plugin sample_event "350234" ""
                    (dl_succeeded (Some "/out/350234.zip")))) =
    ["下载 350234 成功，但 PDF 打包失败。请检查后台日志。"] /\
  uploads (trace (resolve_and_deliver env sample_plugin sample_event "350234" ""
                    (dl_succeeded (Some "/out/350234.zip")))) = [].
Proof. vm_compute. auto. Qed.

(** The unreachable lines 273-289 themselves do what the path-resolution
    step describes: a missing or non-.pdf path falls back to
    [expected_pdf_path]; if that is absent nothing is delivered and the
    packaging failure is reported, otherwise the fallback is delivered. *)
Lemma resolve_and_deliver_fallback (env : Env) (self : Plugin)
    (event : MessageEvent) (album_id at_user : string) (dl_result : DownloadResult)
    (a : Album) :
  dl_album dl_result = Some a ->
  match al_file_path a with
  | Some f => py_truthy (Some f) && endswith f ".pdf" = false
  | None => True
  end ->
  transport_ok env ->
  let tr := trace (resolve_and_deliver env self event album_id at_user dl_result) in
  (path_exists env (expected_pdf_path self album_id) = false ->
   uploads tr = [] /\
   replies tr = ["下载 " ++ album_id ++ " 成功，但 PDF 打包失败。请检查后台日志。"]) /\
  (path_exists env (expected_pdf_path self album_id) = true ->
   uploads tr = [(reply_target event, expected_pdf_path self album_id,
                  basename (expected_pdf_path self album_id))]).
Proof.
  intros Ha Hp [Hs Hu].
  unfold resolve_and_deliver, send_file_and_notify, send_reply, try_except, log,
    call, ret, bind, trace. rewrite Ha. simpl.
  destruct (al_file_path a) as [f|]; simpl in Hp |- *;
    [rewrite Hp|]; simpl; split; intros He; rewrite He; simpl;
    rewrite ?Hs, ?Hu; simpl; auto.
Qed.

(** ** C7: one task per numeric token *)

Section DispatcherProps.

Variable Char : Type.
Variable is_digit : Char -> bool.
Variable is_space : Char -> bool.
Variable encode : list Char -> string.

(** No white-space character is a decimal digit (true of Python's classes). *)
Hypothesis space_not_digit : forall c, is_space c = true -> is_digit c = false.

Let findall_from := findall_digits_from Char is_digit.

Lemma findall_lstrip (s : list Char) :
  findall_from (lstrip_by Char is_space s) [] = findall_from s [].
Proof.
  induction s as [|c r IH]; simpl; [reflexivity|].
  destruct (is_space c) eqn:Hc; [|reflexivity].
  rewrite IH. subst findall_from. simpl. rewrite (space_not_digit c Hc). reflexivity.
Qed.

Lemma findall_snoc_nondigit (c : Char) :
  is_digit c = false ->
  forall s cur, findall_from (s ++ [c]) cur = findall_from s cur.
Proof.
  intros Hc s. subst findall_from.
  induction s as [|d r IH]; intros cur; simpl.
  - rewrite Hc. destruct cur; reflexivity.
  - destruct (is_digit d); [apply IH|destruct cur; rewrite IH; reflexivity].
Qed.

Lemma findall_app_spaces (w : list Char) :
  Forall (fun c => is_space c = true) w ->
  forall s cur, findall_from (s ++ w) cur = findall_from s cur.
Proof.
  induction w as [|c w IH]; intros Hw s cur.
  - rewrite app_nil_r. reflexivity.
  - inversion Hw as [|? ? Hc Hw']; subst.
    replace (s ++ c :: w)%list with ((s ++ [c]) ++ w)%list
      by (rewrite <- app_assoc; reflexivity).
    rewrite (IH Hw'). apply findall_snoc_nondigit, space_not_digit, Hc.
Qed.

Lemma lstrip_by_split (s : list Char) :
  exists pre, s = (pre ++ lstrip_by Char is_space s)%list /\
              Forall (fun c => is_space c = true) pre.
Proof.
  induction s as [|c r (pre & E & Hpre)]; simpl.
  - exists []. auto.
  - destruct (is_space c) eqn:Hc.
    + exists (c :: pre). simpl. rewrite <- E. auto.
    + exists []. auto.
Qed.

(** [re.findall] finds the same tokens after [str.strip]. *)
Lemma findall_strip (s : list Char) :
  findall_digits Char is_digit (strip_chars Char is_space s) =
  findall_digits Char is_digit s.
Proof.
  unfold findall_digits, strip_chars.
  fold findall_from.
  set (t := lstrip_by Char is_space s).
  destruct (lstrip_by_split (rev t)) as (pre & E & Hpre).
  assert (Et : t = (rev (lstrip_by Char is_space (rev t)) ++ rev pre)%list).
  { rewrite <- rev_app_distr, <- E, rev_involutive. reflexivity. }
  transitivity (findall_from t []).
  - rewrite Et at 2. rewrite findall_app_spaces; [reflexivity|].
    apply Forall_rev, Hpre.
  - apply findall_lstrip.
Qed.

Lemma spawn_all_trace (album_ids : list string) (at_user : string) :
  spawn_all album_ids at_user =
  (map (fun album_id => ASpawn album_id at_user) album_ids, Ret tt).
Proof.
  induction album_ids as [|a r IH]; simpl; [reflexivity|].
  unfold bind, call. rewrite IH. reflexivity.
Qed.

(** C7. For a [/jm] command whose argument text holds the numeric tokens
    [ids] (maximal digit runs, counted per occurrence), with the library
    loaded: if there is none, the dispatcher sends the validation reply and
    spawns nothing; otherwise it sends one acknowledgement stating
    [length ids] and then creates one task per token, in order, without
    running any of them (no fetch, index query or upload in its trace). *)
Theorem C7_one_task_per_token (env : Env) (self : Plugin) (event : MessageEvent)
    (group1 : list Char) :
  jm_loaded self = true ->
  (findall_digits Char is_digit group1 = [] ->
   handle_jm_command Char is_digit is_space encode env self event group1 =
     ([AReply (reply_target event)
         (py_strip (at_user_of event ++ " 请提供至少一个有效的漫画 ID。"))],
      bot_send env (reply_target event)
         (py_strip (at_user_of event ++ " 请提供至少一个有效的漫画 ID。")))) /\
  (findall_digits Char is_digit group1 <> [] ->
   bot_send env (reply_target event)
     (ack_msg (at_user_of event) (length (findall_digits Char is_digit group1))) = Ret tt ->
   handle_jm_command Char is_digit is_space encode env self event group1 =
     (AReply (reply_target event)
        (ack_msg (at_user_of event) (length (findall_digits Char is_digit group1)))
      :: map (fun tok => ASpawn (encode tok) (at_user_of event))
             (findall_digits Char is_digit group1),
      Ret tt)).
Proof.
  intros Hl. unfold handle_jm_command. rewrite Hl, findall_strip. simpl.
  split.
  - intros ->. reflexivity.
  - intros Hne Hs. destruct (findall_digits Char is_digit group1) as [|t ts];
      [congruence|].
    unfold bind, send_reply, call. rewrite Hs.
    rewrite spawn_all_trace, map_map. reflexivity.
Qed.

End DispatcherProps.

Lemma ascii_space_not_digit (c : ascii) :
  py_isspace c = true -> ascii_isdigit c = false.
Proof.
  unfold py_isspace, ascii_isdigit. set (n := nat_of_ascii c).
  destruct (Nat.leb_spec 48 n), (Nat.leb_spec n 57), (Nat.leb_spec 9 n),
           (Nat.leb_spec n 13), (Nat.leb_spec 28 n), (Nat.leb_spec n 32);
    simpl; intros Hsp; try reflexivity; try discriminate; lia.
Qed.

(** The spec's example "123 456 123": three tasks, one per occurrence. *)
Lemma C7_witness :
  handle_jm_command ascii ascii_isdigit py_isspace string_of_list_ascii
    (sample_env [] index_miss (Ret dl_failed) no_search) sample_plugin sample_event
    (list_ascii_of_string " 123 456 123 ") =
  ([AReply (Private "10001") "收到！准备处理 3 个漫画 ID...";
    ASpawn "123" ""; ASpawn "456" ""; ASpawn "123" ""], Ret tt).
Proof.
  exact (proj2 (C7_one_task_per_token ascii ascii_isdigit py_isspace string_of_list_ascii
                  ascii_space_not_digit
                  (sample_env [] index_miss (Ret dl_failed) no_search) sample_plugin
                  sample_event (list_ascii_of_string " 123 456 123 ") eq_refl)
               ltac:(discriminate) eq_refl).
Defined.

(** ** C8: the search reply *)

Lemma str_app_assoc (a b c : string) : (a ++ b) ++ c = a ++ b ++ c.
Proof. induction a; simpl; congruence. Qed.

Lemma str_app_nil_l (a : string) : "" ++ a = a.
Proof. reflexivity. Qed.

Lemma str_app_nil_r (a : string) : a ++ "" = a.
Proof. induction a; simpl; congruence. Qed.

Lemma list_ascii_of_string_app (a b : string) :
  list_ascii_of_string (a ++ b) = (list_ascii_of_string a ++ list_ascii_of_string b)%list.
Proof. induction a; simpl; congruence. Qed.

Lemma string_of_list_ascii_app (a b : list ascii) :
  string_of_list_ascii (a ++ b) = string_of_list_ascii a ++ string_of_list_ascii b.
Proof. induction a; simpl; congruence. Qed.

Lemma rev_string_app (a b : string) : rev_string (a ++ b) = rev_string b ++ rev_string a.
Proof.
  unfold rev_string. rewrite list_ascii_of_string_app, rev_app_distr.
  apply string_of_list_ascii_app.
Qed.

Lemma rev_string_involutive (a : string) : rev_string (rev_string a) = a.
Proof.
  unfold rev_string. rewrite list_ascii_of_string_of_list_ascii, rev_involutive.
  apply string_of_list_ascii_of_string.
Qed.

(** The last byte of the usage hint is not white space. *)
Lemma lstrip_rev_hint (x : string) :
  lstrip (rev_string search_hint ++ x) = rev_string search_hint ++ x.
Proof. reflexivity. Qed.

(** A string that starts with a non-space character and ends with the
    usage hint is left unchanged by [str.strip]. *)
Lemma py_strip_fixed (s t : string) :
  match s with String c _ => py_isspace c = false | EmptyString => False end ->
  s = t ++ search_hint ->
  py_strip s = s.
Proof.
  destruct s as [|c r]; [contradiction|].
  intros Hc Ht. unfold py_strip.
  change (lstrip (String c r)) with (if py_isspace c then lstrip r else String c r).
  rewrite Hc, Ht, rev_string_app, lstrip_rev_hint, <- rev_string_app.
  apply rev_string_involutive.
Qed.

Lemma fold_blocks (l : list AlbumDetail) (h : string) :
  fold_left (fun acc album => acc ++ search_block album) l h =
  h ++ fold_right (fun album acc => search_block album ++ acc) "" l.
Proof.
  revert h. induction l as [|a l IH]; intros h; simpl.
  - symmetry. apply str_app_nil_r.
  - rewrite IH, str_app_assoc. reflexivity.
Qed.

Lemma py_strip_nl (s : string) : py_strip (nl ++ s) = py_strip s.
Proof. reflexivity. Qed.

Lemma format_search_5 (q : string) (a1 a2 a3 a4 a5 : AlbumDetail) (rest : list AlbumDetail) :
  format_search q (a1 :: a2 :: a3 :: a4 :: a5 :: rest) =
  search_header q 5 ++ search_block a1 ++ search_block a2 ++ search_block a3 ++
  search_block a4 ++ search_block a5 ++ search_hint.
Proof.
  unfold format_search. cbn [firstn length]. rewrite fold_blocks.
  cbn [fold_right]. rewrite str_app_nil_r, !str_app_assoc. reflexivity.
Qed.

(** C8. A [/jm_search] whose keyword is not empty and whose search
    succeeds with more than five albums answers, after its "searching"
    notice, with one reply made of the header, exactly the first five albums
    as blocks of ID, title and author lines each closed by a rule line, and
    the usage hint; the albums after the fifth do not appear.  In a group
    the reply starts with the mention of the requester and a newline. *)
Theorem C8_search_top5 (env : Env) (self : Plugin) (event : MessageEvent)
    (group1 : string) (sr : SearchResult) :
  jm_loaded self = true ->
  py_strip group1 <> "" ->
  client_search_album env (py_strip group1) = Ret sr ->
  sr_ok sr = true ->
  5 < length (sr_album_list sr) ->
  transport_ok env ->
  exists a1 a2 a3 a4 a5 rest,
    sr_album_list sr = a1 :: a2 :: a3 :: a4 :: a5 :: rest /\
    replies (trace (handle_jm_search env self event group1)) =
      [py_strip (at_user_of event ++ " 正在搜索: '" ++ py_strip group1 ++ "'...");
       (if String.eqb (message_type event) "group" then at_user_of event ++ nl else "") ++
       search_header (py_strip group1) 5 ++
       search_block a1 ++ search_block a2 ++ search_block a3 ++
       search_block a4 ++ search_block a5 ++ search_hint].
Proof.
  intros Hl Hq Hs Hok Hlen [Hsend Hup].
  destruct (sr_album_list sr) as [|a1 [|a2 [|a3 [|a4 [|a5 rest]]]]] eqn:El;
    simpl in Hlen; try lia.
  exists a1, a2, a3, a4, a5, rest. split; [reflexivity|].
  unfold handle_jm_search, send_reply, try_except, call, bind, trace.
  rewrite Hl. apply String.eqb_neq in Hq. rewrite Hq.
  cbn -[py_strip format_search search_header search_block search_hint
        at_user_of String.append nl].
  rewrite !Hsend, Hs, Hok, El.
  cbn -[py_strip format_search search_header search_block search_hint
        at_user_of String.append nl].
  rewrite !Hsend.
  cbn -[py_strip format_search search_header search_block search_hint
        at_user_of String.append nl].
  rewrite format_search_5. f_equal. f_equal.
  unfold at_user_of. destruct (String.eqb (message_type event) "group").
  - rewrite !str_app_assoc.
    apply (py_strip_fixed _ ("[CQ:at,qq=" ++ user_id event ++ "]" ++ nl ++
             search_header (py_strip group1) 5 ++ search_block a1 ++ search_block a2 ++
             search_block a3 ++ search_block a4 ++ search_block a5)).
    + reflexivity.
    + rewrite !str_app_assoc. reflexivity.
  - rewrite !str_app_nil_l, py_strip_nl.
    apply (py_strip_fixed _ (search_header (py_strip group1) 5 ++ search_block a1 ++
             search_block a2 ++ search_block a3 ++ search_block a4 ++ search_block a5)).
    + reflexivity.
    + rewrite !str_app_assoc. reflexivity.
Qed.

(** ** C9: the task boundary *)

(** C9, as the claim states it, fails: when the transport rejects every
    message, the task's own error reply raises and [process_download]
    itself raises. *)
Lemma C9_counterexample :
  result (process_download (transport_down_env [] index_miss (Ret dl_failed))
            sample_plugin sample_event "350234" "") = Raise (ExtError "transport down").
Proof. vm_compute. reflexivity. Qed.

(** C9 (amended).  Any exception [e] escaping the body of the [try] of
    [process_download] is caught there: the task logs it at exception level
    with the identifier, then sends the generic reply
    [处理 <id> 时发生严重错误: <e>], and [process_download] returns normally
    exactly when that reply is sent, otherwise raises what the send raised.
    A body that returns normally is the whole run.  An upload failure is
    caught earlier, by [send_file_and_notify], which logs it and sends its
    delivery-failure reply.  The dispatcher never runs the tasks it creates:
    its run depends on nothing of the world but the transport. *)
Theorem C9_task_boundary (env : Env) (self : Plugin) (event : MessageEvent)
    (album_id at_user : string) :
  (forall e, result (process_download_body env self event album_id at_user) = Raise e ->
   trace (process_download env self event album_id at_user) =
     (trace (process_download_body env self event album_id at_user) ++
      [ALog Exception ("处理 " ++ album_id ++ " 时发生未知错误: " ++ str_exn e);
       AReply (reply_target event) (generic_error_msg album_id e)])%list /\
   result (process_download env self event album_id at_user) =
     bot_send env (reply_target event) (generic_error_msg album_id e)) /\
  (result (process_download_body env self event album_id at_user) = Ret tt ->
   process_download env self event album_id at_user =
     process_download_body env self event album_id at_user) /\
  (forall e', result (process_download env self event album_id at_user) = Raise e' ->
   exists e, result (process_download_body env self event album_id at_user) = Raise e /\
             bot_send env (reply_target event) (generic_error_msg album_id e) = Raise e') /\
  (forall file_path e,
   bot_upload env (reply_target event) file_path (basename file_path) = Raise e ->
   send_file_and_notify env event file_path album_id at_user =
     ([AUpload (reply_target event) file_path (basename file_path);
       ALog Error ("发送文件 " ++ basename file_path ++ " (ID: " ++ album_id
                   ++ ") 时失败: " ++ str_exn e);
       AReply (reply_target event) ("发送文件 " ++ album_id ++ " 时失败: " ++ str_exn e)],
      bot_send env (reply_target event) ("发送文件 " ++ album_id ++ " 时失败: " ++ str_exn e))) /\
  (forall (Char : Type) is_digit is_space encode (env' : Env) (group1 : list Char),
   bot_send env' = bot_send env ->
   handle_jm_command Char is_digit is_space encode env' self event group1 =
   handle_jm_command Char is_digit is_space encode env self event group1).
Proof.
  split; [|split; [|split; [|split]]].
  - intros e He. unfold process_download, try_except, trace, result in *.
    destruct (process_download_body env self event album_id at_user) as [t o].
    simpl in He. subst o. unfold log, send_reply, call, bind. simpl.
    destruct (bot_send _ _ _); auto.
  - intros Hr. unfold process_download, try_except, result in *.
    destruct (process_download_body env self event album_id at_user) as [t o].
    simpl in Hr. subst o. reflexivity.
  - intros e' Hr. unfold process_download, try_except, result in *.
    destruct (process_download_body env self event album_id at_user) as [t [[]|e]];
      simpl in Hr; [discriminate Hr|].
    unfold log, send_reply, call, bind in Hr. simpl in Hr.
    destruct (bot_send env (reply_target event) (generic_error_msg album_id e)) eqn:Es;
      simpl in Hr; [discriminate Hr|].
    injection Hr as <-. exists e. auto.
  - intros file_path e Hu.
    unfold send_file_and_notify, send_reply, try_except, log, call, bind.
    rewrite Hu. simpl. destruct (bot_send _ _ _); reflexivity.
  - intros Char is_digit is_space encode env' group1 He.
    unfold handle_jm_command, send_reply. rewrite He. reflexivity.
Qed.

(** At the input of C1, the [NameError] is caught at the boundary. *)
Lemma C9_witness :
  let env := sample_env [] index_miss (Ret dl_failed) no_search in
  result (process_download env sample_plugin sample_event "350234" "") = Ret tt.
Proof.
  intros env.
  rewrite (proj2 (proj1 (C9_task_boundary env sample_plugin sample_event "350234" "")
                    (NameError "dl") eq_refl)).
  reflexivity.
Defined.

(** ** C10: the index match is an unanchored suffix *)

Lemma str_length_app (a b : string) :
  String.length (a ++ b) = String.length a + String.length b.
Proof. induction a; simpl; congruence. Qed.

Lemma substring_app_skip (a b : string) (n : nat) :
  substring (String.length a) n (a ++ b) = substring 0 n b.
Proof. induction a; simpl; [reflexivity|exact IHa]. Qed.

Lemma substring_whole (b : string) : substring 0 (String.length b) b = b.
Proof. induction b; simpl; congruence. Qed.

Lemma endswith_app (a b : string) : endswith (a ++ b) b = true.
Proof.
  unfold endswith. rewrite str_length_app.
  replace (String.length a + String.length b - String.length b) with (String.length a)
    by lia.
  rewrite substring_app_skip, substring_whole, String.eqb_refl, andb_true_r.
  apply Nat.leb_le. lia.
Qed.

Lemma py_truthy_pdf (x : string) : py_truthy (Some (x ++ ".pdf")) = true.
Proof. destruct x; reflexivity. Qed.

(** C10. Let [J = prefix ++ I] with a non-empty [prefix] (so [J <> I]).
    When [<I>.pdf] is not in the output directory and the index answers
    [I]'s query with one file [dir ++ J ++ ".pdf"], the task for [I]
    treats that file as [I]'s cache hit: it delivers [J]'s artifact and
    never fetches [I]. *)
Theorem C10_suffix_collision (env : Env) (self : Plugin) (event : MessageEvent)
    (album_id prefix dir at_user : string) :
  prefix <> "" ->
  path_exists env (expected_pdf_path self album_id) = false ->
  ui_search_cache env album_id =
    Ret {| cr_ok := true; cr_file_list := [dir ++ prefix ++ album_id ++ ".pdf"] |} ->
  transport_ok env ->
  prefix ++ album_id <> album_id /\
  downloads (trace (process_download env self event album_id at_user)) = [] /\
  uploads (trace (process_download env self event album_id at_user)) =
    [(reply_target event, dir ++ prefix ++ album_id ++ ".pdf",
      basename (dir ++ prefix ++ album_id ++ ".pdf"))].
Proof.
  intros Hp He Hi [Hs Hu]. split.
  { intros E. apply (f_equal String.length) in E. rewrite str_length_app in E.
    destruct prefix; [congruence|simpl in E; lia]. }
  assert (Hm : endswith (dir ++ prefix ++ album_id ++ ".pdf") (album_id ++ ".pdf") = true).
  { rewrite <- !str_app_assoc. rewrite (str_app_assoc (dir ++ prefix)). apply endswith_app. }
  assert (Ht : py_truthy (Some (dir ++ prefix ++ album_id ++ ".pdf")) = true).
  { rewrite <- !str_app_assoc. apply py_truthy_pdf. }
  unfold py_truthy in Ht.
  unfold_plugin. rewrite He, Hi. simpl. rewrite Hm. simpl. rewrite Ht.
  rewrite !Hs, !Hu. split; reflexivity.
Qed.

(** The claim's pair: I = 350234, J = 1350234, file /out/1350234.pdf. *)
Lemma C10_witness :
  let env := sample_env [] {| cr_ok := true; cr_file_list := ["/out/1350234.pdf"] |}
               (Ret dl_failed) no_search in
  uploads (trace (process_download env sample_plugin sample_event "350234" "")) =
    [(Private "10001", "/out/1350234.pdf", "1350234.pdf")].
Proof.
  intros env.
  exact (proj2 (proj2 (C10_suffix_collision env sample_plugin sample_event
                         "350234" "1" "/out/" "" ltac:(discriminate) eq_refl eq_refl
                         (conj (fun _ _ => eq_refl) (fun _ _ _ => eq_refl))))).
Defined.

(** ** Witnesses *)

(** 350234.pdf already in /out: no fetch. *)
Lemma C4_witness :
  let env := sample_env ["/out/350234.pdf"] index_miss (Ret dl_failed) no_search in
  downloads (trace (process_download env sample_plugin sample_event "350234" "")) = [] /\
  uploads (trace (process_download env sample_plugin sample_event "350234" "")) =
    [(Private "10001", "/out/350234.pdf", "350234.pdf")].
Proof.
  intros env.
  destruct (C4_cache_hit_no_fetch env sample_plugin sample_event "350234" "" eq_refl)
    as [Hd [_ Hu]].
  exact (conj Hd (Hu (conj (fun _ _ => eq_refl) (fun _ _ _ => eq_refl)))).
Defined.

(** 350234 neither in /out nor in the index: one fetch of 350234. *)
Lemma C5_witness :
  let env := sample_env [] index_miss (Ret dl_failed) no_search in
  downloads (trace (process_download env sample_plugin sample_event "350234" "")) =
    ["350234"].
Proof.
  intros env.
  exact (proj2 (C5_miss_fetches_once env sample_plugin sample_event "350234" ""
                  index_miss eq_refl eq_refl eq_refl) eq_refl).
Defined.

(** The probe on a disk holding 350234.pdf, and on an empty disk whose
    index lists two matching files. *)
Lemma C6_witness :
  cache_probe (sample_env ["/out/350234.pdf"] index_miss (Ret dl_failed) no_search)
    sample_plugin "350234" = ([], Ret (Some "/out/350234.pdf")) /\
  trace (cache_probe (sample_env []
           {| cr_ok := true; cr_file_list := ["/a/1.pdf"; "/b/350234.pdf"; "/c/350234.pdf"] |}
           (Ret dl_failed) no_search) sample_plugin "350234") = [ASearchCache "350234"].
Proof.
  split.
  - exact (proj1 (C6_cache_probe_order
                    (sample_env ["/out/350234.pdf"] index_miss (Ret dl_failed) no_search)
                    sample_plugin "350234") eq_refl).
  - exact (proj1 (proj2 (C6_cache_probe_order
                    (sample_env []
                       {| cr_ok := true;
                          cr_file_list := ["/a/1.pdf"; "/b/350234.pdf"; "/c/350234.pdf"] |}
                       (Ret dl_failed) no_search)
                    sample_plugin "350234") _ eq_refl eq_refl)).
Defined.

(** The spec's scenario: keyword "abc", seven albums, private chat. *)
Lemma C8_witness :
  exists a1 a2 a3 a4 a5 rest,
    sr_album_list seven_albums = a1 :: a2 :: a3 :: a4 :: a5 :: rest /\
    replies (trace (handle_jm_search (sample_env [] index_miss (Ret dl_failed) (Ret seven_albums))
                      sample_plugin sample_event "abc")) =
      [py_strip (at_user_of sample_event ++ " 正在搜索: '" ++ py_strip "abc" ++ "'...");
       (if String.eqb (message_type sample_event) "group" then at_user_of sample_event ++ nl
        else "") ++
       search_header (py_strip "abc") 5 ++
       search_block a1 ++ search_block a2 ++ search_block a3 ++
       search_block a4 ++ search_block a5 ++ search_hint].
Proof.
  exact (C8_search_top5 (sample_env [] index_miss (Ret dl_failed) (Ret seven_albums))
           sample_plugin sample_event "abc" seven_albums eq_refl
           ltac:(vm_compute; discriminate) eq_refl eq_refl ltac:(vm_compute; lia)
           (conj (fun _ _ => eq_refl) (fun _ _ _ => eq_refl))).
Defined.

(** * Further properties of the plugin *)

(** ** [__init__] *)

(** Case analysis on the calls of [__init__] inside a hypothesis. *)
Ltac init_cases H :=
  unfold plugin_init, py_makedirs, ilog, callW, bindW, retW in H;
  repeat (simpl in H;
          match type of H with
          | context [match ?x with Ret _ => _ | Raise _ => _ end] =>
              let E := fresh "E" in destruct x eqn:E
          | context [if ?b then _ else _] =>
              let E := fresh "E" in destruct b eqn:E
          end);
  simpl in H.

(** X1. When [__init__] completes, the option handed to the UI and to the
    client downloads into the plugin's own [download_dir] (the configured
    one, else the default), which was created first, and whatever the
    loaded jmcomic.yml said, it names album folders [${album_id}], packs
    them with [JmPdfPacker] into [${album_dir_name}.pdf] and uses meta
    files. *)
Theorem init_option_settings (jm_available : bool) (config : Config) (ienv : InitEnv)
    (t : list init_action) (p : Plugin) (o : JmOption) :
  plugin_init jm_available config ienv = (t, Ret (Some (p, o))) ->
  jm_loaded p = true /\
  download_dir p = cfg_get config "download_dir" default_download_dir /\
  jo_dir_download o = download_dir p /\
  jo_album_name_format o = "${album_id}" /\
  jo_pdf_filename o = "${album_dir_name}.pdf" /\
  jo_pp_plugin o = "pdf_packer" /\ jo_pp_impl o = "JmPdfPacker" /\
  jo_use_meta_file o = true /\
  In (IMakedirs (download_dir p)) t /\ In (INewUI o) t /\ In (INewClient o) t.
Proof.
  intros H. init_cases H; try discriminate H; injection H as <- <- <-;
    simpl; repeat split; auto 20.
Qed.

(** X2. When [__init__] completes, the account of the option is the
    plugin configuration's [username] and [password] if both are set and
    non-empty; otherwise it is the account loaded from jmcomic.yml,
    untouched (one credential alone in the plugin configuration is
    ignored). *)
Theorem init_account_precedence (jm_available : bool) (config : Config) (ienv : InitEnv)
    (t : list init_action) (p : Plugin) (o loaded : JmOption) :
  ie_load ienv (cfg_get config "jm_config_path" default_config_path) = Ret loaded ->
  plugin_init jm_available config ienv = (t, Ret (Some (p, o))) ->
  jo_account o =
    if py_truthy (cfg_lookup config "username") && py_truthy (cfg_lookup config "password")
    then {| acc_username := cfg_lookup config "username";
            acc_password := cfg_lookup config "password" |}
    else jo_account loaded.
Proof.
  intros Hl H. init_cases H; try discriminate H; injection H as <- <- <-;
    rewrite Hl in *; match goal with E : Ret _ = Ret _ |- _ => injection E as <- end;
    simpl; rewrite ?E, ?E0, ?E1, ?E2, ?E3, ?E4, ?E5, ?E6, ?E7, ?E8; try reflexivity.
Qed.

Lemma dirname_head_no_slash (s : string) :
  ~ In "/"%char (list_ascii_of_string s) -> dirname_head s = "".
Proof.
  induction s as [|c r IH]; simpl; intros Hn; [reflexivity|].
  rewrite IH by tauto.
  destruct (Ascii.eqb c "/"%char) eqn:Ec; [|reflexivity].
  apply Ascii.eqb_eq in Ec. tauto.
Qed.

(** X3. When the configured [jm_config_path] has no directory part (no
    ['/'], e.g. "jmcomic.yml"), [os.path.dirname] gives [""] and
    [os.makedirs("")] raises [FileNotFoundError]: [__init__] fails before
    loading any option or creating any client. *)
Theorem init_config_path_without_dir (config : Config) (ienv : InitEnv) :
  ~ In "/"%char (list_ascii_of_string (cfg_get config "jm_config_path" default_config_path)) ->
  plugin_init true config ienv =
    ([IMakedirs ""], Raise (ExtError "[Errno 2] No such file or directory: ''")).
Proof.
  intros Hn. unfold plugin_init, py_makedirs, dirname, callW, bindW.
  rewrite (dirname_head_no_slash _ Hn). reflexivity.
Qed.

Lemma init_option_settings_witness :
  exists t p o, plugin_init true sample_config sample_ienv = (t, Ret (Some (p, o))) /\
    download_dir p = "/out" /\ jo_dir_download o = "/out" /\
    jo_album_name_format o = "${album_id}" /\ jo_pdf_filename o = "${album_dir_name}.pdf".
Proof.
  do 3 eexists. split; [reflexivity|].
  match goal with |- context [download_dir ?p] =>
    match goal with |- context [jo_dir_download ?o] =>
      pose proof (init_option_settings true sample_config sample_ienv _ p o eq_refl) as T end end.
  destruct T as (_ & Hd & Ho & Hf & Hp & _). rewrite Ho, Hd. repeat split; assumption.
Defined.

Lemma init_account_precedence_witness :
  exists t p o, plugin_init true sample_config sample_ienv = (t, Ret (Some (p, o))) /\
    jo_account o = jo_account sample_option.
Proof.
  do 3 eexists. split; [reflexivity|].
  match goal with |- jo_account ?o = _ =>
    exact (init_account_precedence true sample_config sample_ienv _ _ o sample_option
             eq_refl eq_refl) end.
Defined.

Lemma init_config_path_without_dir_witness :
  plugin_init true [("jm_config_path", "jmcomic.yml")] sample_ienv =
    ([IMakedirs ""], Raise (ExtError "[Errno 2] No such file or directory: ''")).
Proof.
  apply init_config_path_without_dir. simpl. intuition discriminate.
Defined.

(** ** The [/jm] dispatcher: the extracted tokens *)

Section DispatcherTokens.

Variable Char : Type.
Variable is_digit : Char -> bool.

Lemma forallb_rev_gen (l : list Char) :
  forallb is_digit (rev l) = forallb is_digit l.
Proof.
  induction l as [|c l IH]; simpl; [reflexivity|].
  rewrite forallb_app, IH. simpl. rewrite andb_true_r, andb_comm. reflexivity.
Qed.

Lemma findall_concat_from (s cur : list Char) :
  concat (findall_digits_from Char is_digit s cur) = (rev cur ++ filter is_digit s)%list.
Proof.
  revert cur. induction s as [|c r IH]; intros cur; simpl.
  - destruct cur; simpl; [reflexivity|]. rewrite !app_nil_r. reflexivity.
  - destruct (is_digit c).
    + rewrite IH. simpl. rewrite <- app_assoc. reflexivity.
    + destruct cur as [|d cur]; [apply IH|].
      simpl. rewrite IH. simpl. reflexivity.
Qed.

Lemma findall_tokens_from (s cur : list Char) :
  forallb is_digit cur = true ->
  Forall (fun tok => tok <> [] /\ forallb is_digit tok = true)
         (findall_digits_from Char is_digit s cur).
Proof.
  revert cur. induction s as [|c r IH]; intros cur Hc; simpl.
  - destruct cur as [|d cur]; constructor; [|constructor].
    split; [intros E; apply (f_equal (@length Char)) in E;
            rewrite length_rev in E; discriminate E|].
    rewrite forallb_rev_gen. exact Hc.
  - destruct (is_digit c) eqn:Ed.
    + apply IH. simpl. rewrite Ed. exact Hc.
    + destruct cur as [|d cur]; [apply IH; reflexivity|].
      constructor; [|apply IH; reflexivity].
      split; [intros E; apply (f_equal (@length Char)) in E;
              rewrite length_rev in E; discriminate E|].
      rewrite forallb_rev_gen. exact Hc.
Qed.

Lemma findall_count_from (s cur : list Char) :
  length (findall_digits_from Char is_digit s cur) =
  run_starts is_digit (match cur with [] => false | _ => true end) s +
  (match cur with [] => 0 | _ => 1 end).
Proof.
  revert cur. induction s as [|c r IH]; intros cur; simpl.
  - destruct cur; reflexivity.
  - destruct (is_digit c) eqn:Ed; destruct cur as [|d cur]; simpl;
      rewrite ?IH; simpl; lia.
Qed.

(** X4. The identifiers [re.findall(r"\d+", text)] extracts are non-empty
    runs of digits, and together, in order, they hold exactly the digits
    of the text: no digit is dropped or repeated, every other character
    only separates identifiers; there is one identifier per maximal run of
    digits. *)
Theorem findall_digits_tokens (s : list Char) :
  concat (findall_digits Char is_digit s) = filter is_digit s /\
  Forall (fun tok => tok <> [] /\ forallb is_digit tok = true)
         (findall_digits Char is_digit s) /\
  length (findall_digits Char is_digit s) = run_starts is_digit false s.
Proof.
  split; [apply findall_concat_from|split; [apply findall_tokens_from; reflexivity|]].
  unfold findall_digits. rewrite findall_count_from. simpl. lia.
Qed.

End DispatcherTokens.

(** ** [handle_jm_search] *)


Lemma rev_string_nonempty (s : string) : s <> "" -> rev_string s <> "".
Proof.
  intros Hs E. apply Hs. rewrite <- (rev_string_involutive s), E. reflexivity.
Qed.

(** A string that starts and ends with a kept character is left
    unchanged by [str.strip]. *)
Lemma py_strip_id (s : string) :
  first_nonspace s = true -> last_nonspace s = true -> py_strip s = s.
Proof.
  unfold last_nonspace. destruct s as [|c r]; [discriminate|].
  intros Hc Hd. simpl in Hc. apply negb_true_iff in Hc.
  unfold py_strip. simpl lstrip. rewrite Hc.
  destruct (rev_string (String c r)) as [|d r'] eqn:E; [discriminate|].
  simpl in Hd. apply negb_true_iff in Hd. simpl. rewrite Hd, <- E.
  apply rev_string_involutive.
Qed.

Lemma first_nonspace_app (a b : string) :
  a <> "" -> first_nonspace (a ++ b) = first_nonspace a.
Proof. destruct a; [congruence|reflexivity]. Qed.

Lemma last_nonspace_app (a b : string) :
  b <> "" -> last_nonspace (a ++ b) = last_nonspace b.
Proof.
  intros Hb. unfold last_nonspace. rewrite rev_string_app.
  destruct (rev_string b) eqn:E; [exfalso; exact (rev_string_nonempty b Hb E)|].
  reflexivity.
Qed.

Lemma py_strip_space (s : string) : py_strip (" " ++ s) = py_strip s.
Proof. reflexivity. Qed.


(** X6. Once the "searching" notice is sent, a search that raises, a
    search answered with [ok=false] and a search with no album each end the
    command with one more reply (the error with the exception's text, the
    failure with the library's message, the not-found notice), after the
    one [search_album] call with the stripped keyword; only the raising
    search is logged. *)
Theorem search_failure_paths (env : Env) (self : Plugin) (event : MessageEvent)
    (group1 : string) :
  jm_loaded self = true ->
  py_strip group1 <> "" ->
  transport_ok env ->
  let q := py_strip group1 in
  let tgt := reply_target event in
  let at_user := at_user_of event in
  let progress := AReply tgt (py_strip (at_user ++ " 正在搜索: '" ++ q ++ "'...")) in
  (forall e, client_search_album env q = Raise e ->
   handle_jm_search env self event group1 =
     ([progress; ASearchAlbum q;
       ALog Exception ("搜索 '" ++ q ++ "' 时发生未知错误: " ++ str_exn e);
       AReply tgt (py_strip (at_user ++ " 搜索时出错: " ++ str_exn e))], Ret tt)) /\
  (forall sr, client_search_album env q = Ret sr -> sr_ok sr = false ->
   handle_jm_search env self event group1 =
     ([progress; ASearchAlbum q;
       AReply tgt (py_strip (at_user ++ " 搜索失败: " ++ sr_msg sr))], Ret tt)) /\
  (forall sr, client_search_album env q = Ret sr -> sr_ok sr = true ->
   sr_album_list sr = [] ->
   handle_jm_search env self event group1 =
     ([progress; ASearchAlbum q;
       AReply tgt (py_strip (at_user ++ " 未找到与 '" ++ q ++ "' 相关的结果。"))], Ret tt)).
Proof.
  intros Hl Hq [Hs Hu] q tgt at_user progress.
  unfold handle_jm_search, send_reply, try_except, log, call, bind.
  rewrite Hl. apply String.eqb_neq in Hq. rewrite Hq. fold q tgt at_user.
  rewrite !Hs. split; [|split].
  - intros e He. rewrite He. simpl. rewrite ?Hs. simpl. rewrite ?Hs. reflexivity.
  - intros sr He Ho. rewrite He. simpl. rewrite Ho. simpl. rewrite ?Hs. reflexivity.
  - intros sr He Ho El. rewrite He. simpl. rewrite Ho, El. simpl. rewrite ?Hs. reflexivity.
Qed.

Lemma firstn_5_small (l : list AlbumDetail) : length l <= 5 -> firstn 5 l = l.
Proof. intros H. apply firstn_all2. exact H. Qed.

(** X7. A search that succeeds with one to five albums shows all of them,
    in order: after the "searching" notice the one reply is the header
    announcing that count, one block per album and the usage hint (in a
    group, after the mention of the requester and a newline). *)
Theorem search_all_shown (env : Env) (self : Plugin) (event : MessageEvent)
    (group1 : string) (sr : SearchResult) :
  jm_loaded self = true ->
  py_strip group1 <> "" ->
  client_search_album env (py_strip group1) = Ret sr ->
  sr_ok sr = true ->
  0 < length (sr_album_list sr) <= 5 ->
  transport_ok env ->
  replies (trace (handle_jm_search env self event group1)) =
    [py_strip (at_user_of event ++ " 正在搜索: '" ++ py_strip group1 ++ "'...");
     (if String.eqb (message_type event) "group" then at_user_of event ++ nl else "") ++
     search_header (py_strip group1) (length (sr_album_list sr)) ++
     fold_right (fun album acc => search_block album ++ acc) "" (sr_album_list sr) ++
     search_hint].
Proof.
  intros Hl Hq Hs Hok Hlen [Hsend Hup].
  unfold handle_jm_search, send_reply, try_except, call, bind, trace.
  rewrite Hl. apply String.eqb_neq in Hq. rewrite Hq.
  rewrite !Hsend, Hs.
  cbn -[py_strip format_search search_header search_block search_hint
        at_user_of String.append nl].
  rewrite Hok.
  destruct (sr_album_list sr) as [|a l] eqn:El; [simpl in Hlen; lia|].
  cbn -[py_strip format_search search_header search_block search_hint
        at_user_of String.append nl length].
  rewrite !Hsend.
  cbn -[py_strip format_search search_header search_block search_hint
        at_user_of String.append nl length].
  unfold format_search. rewrite firstn_5_small by lia. rewrite fold_blocks.
  do 3 f_equal. cbn [fold_right].
  unfold at_user_of. destruct (String.eqb (message_type event) "group").
  - rewrite !str_app_assoc.
    apply (py_strip_fixed _ ("[CQ:at,qq=" ++ user_id event ++ "]" ++ nl ++
             search_header (py_strip group1) (length (a :: l)) ++ search_block a ++
             fold_right (fun album acc => search_block album ++ acc) "" l)).
    + reflexivity.
    + rewrite !str_app_assoc. reflexivity.
  - rewrite !str_app_nil_l, py_strip_nl, !str_app_assoc.
    apply (py_strip_fixed _ (search_header (py_strip group1) (length (a :: l)) ++
             search_block a ++ fold_right (fun album acc => search_block album ++ acc) "" l)).
    + reflexivity.
    + rewrite !str_app_assoc. reflexivity.
Qed.


Lemma search_failure_paths_witness :
  handle_jm_search (sample_env [] index_miss (Ret dl_failed)
                      (Raise (ExtError "timeout"))) sample_plugin sample_event "abc" =
    ([AReply (Private "10001") "正在搜索: 'abc'..."; ASearchAlbum "abc";
      ALog Exception "搜索 'abc' 时发生未知错误: timeout";
      AReply (Private "10001") "搜索时出错: timeout"], Ret tt).
Proof.
  exact (proj1 (search_failure_paths (sample_env [] index_miss (Ret dl_failed)
                                        (Raise (ExtError "timeout")))
                  sample_plugin sample_event "abc" eq_refl
                  ltac:(vm_compute; discriminate)
                  (conj (fun _ _ => eq_refl) (fun _ _ _ => eq_refl)))
           (ExtError "timeout") eq_refl).
Defined.

Lemma search_all_shown_witness :
  replies (trace (handle_jm_search (sample_env [] index_miss (Ret dl_failed) (Ret two_albums))
                    sample_plugin sample_event "abc")) =
    ["正在搜索: 'abc'...";
     search_header "abc" 2 ++ search_block (sample_album 1) ++ search_block (sample_album 2) ++
     search_hint].
Proof.
  exact (search_all_shown (sample_env [] index_miss (Ret dl_failed) (Ret two_albums))
           sample_plugin sample_event "abc" two_albums eq_refl
           ltac:(vm_compute; discriminate) eq_refl eq_refl ltac:(vm_compute; lia)
           (conj (fun _ _ => eq_refl) (fun _ _ _ => eq_refl))).
Defined.

(** ** [handle_jm_status] *)

Lemma last_nonspace_app_r (a b : string) :
  last_nonspace b = true -> last_nonspace (a ++ b) = true.
Proof.
  intros H. rewrite last_nonspace_app; [exact H|].
  intros ->. discriminate H.
Qed.

Ltac status_run Hl Hs :=
  unfold handle_jm_status, liftM, send_reply, try_exceptW, callW, bindW, call, log, bind;
  rewrite Hl;
  cbn -[py_strip at_user_of String.append login_msg nl];
  rewrite ?Hs;
  cbn -[py_strip at_user_of String.append login_msg nl];
  rewrite ?Hs;
  cbn -[py_strip at_user_of String.append login_msg nl].

(** X8. When [check_login] answers "not logged in", the second reply is
    the not-logged-in notice carrying the library's message verbatim, in
    the middle of the text, whatever that message is (even empty or white
    space); the user name, e-mail and VIP fields are not shown. *)
Theorem status_not_logged_in (env : Env) (self : Plugin) (event : MessageEvent)
    (r : LoginResult) :
  jm_loaded self = true ->
  transport_ok env ->
  lr_is_login r = false ->
  handle_jm_status env self (Ret r) event =
    ([SBase (AReply (reply_target event) (py_strip (at_user_of event ++ " 正在检查登录状态...")));
      SCheckLogin;
      SBase (AReply (reply_target event)
        ((if String.eqb (message_type event) "group" then at_user_of event ++ " " else "") ++
         "未登录。" ++ nl ++ "信息: " ++ lr_msg r ++ nl ++
         "请检查 config.yml 中的 'username' 和 'password' 配置，" ++
         "或 jmcomic.yml 中的 cookies 是否有效。"))], Ret tt).
Proof.
  intros Hl [Hs Hu] Hn. status_run Hl Hs.
  do 5 f_equal. unfold login_msg. rewrite Hn.
  unfold at_user_of. destruct (String.eqb (message_type event) "group").
  - rewrite py_strip_id; [rewrite !str_app_assoc; reflexivity|reflexivity|].
    repeat apply last_nonspace_app_r. reflexivity.
  - rewrite str_app_nil_l, py_strip_space, py_strip_id; [reflexivity|reflexivity|].
    repeat apply last_nonspace_app_r. reflexivity.
Qed.


(** X10. When [check_login] raises, the exception is logged and the second
    reply is the error reply with its text; the command then returns
    normally. *)
Theorem status_check_error (env : Env) (self : Plugin) (event : MessageEvent) (e : exn) :
  jm_loaded self = true ->
  transport_ok env ->
  handle_jm_status env self (Raise e) event =
    ([SBase (AReply (reply_target event) (py_strip (at_user_of event ++ " 正在检查登录状态...")));
      SCheckLogin;
      SBase (ALog Exception ("检查登录状态时出错: " ++ str_exn e));
      SBase (AReply (reply_target event)
        (py_strip (at_user_of event ++ " 检查登录状态时出错: " ++ str_exn e)))], Ret tt).
Proof.
  intros Hl [Hs Hu]. status_run Hl Hs. reflexivity.
Qed.

(** ** Every handler stops at a failed first reply *)

(** X11. When every message to the requester's chat fails with [e], each
    command handler stops at its first reply and raises [e]: [/jm] creates
    no task, [/jm_search] never searches and [/jm_status] never checks the
    login (the first reply is outside their [try]). *)
Theorem first_reply_failure_aborts (env : Env) (self : Plugin) (event : MessageEvent)
    (e : exn) :
  jm_loaded self = true ->
  (forall m, bot_send env (reply_target event) m = Raise e) ->
  (forall (Char : Type) is_digit is_space encode (group1 : list Char),
   (forall c, is_space c = true -> is_digit c = false) ->
   findall_digits Char is_digit group1 <> [] ->
   handle_jm_command Char is_digit is_space encode env self event group1 =
     ([AReply (reply_target event)
         (ack_msg (at_user_of event) (length (findall_digits Char is_digit group1)))],
      Raise e)) /\
  (forall group1, py_strip group1 <> "" ->
   handle_jm_search env self event group1 =
     ([AReply (reply_target event)
         (py_strip (at_user_of event ++ " 正在搜索: '" ++ py_strip group1 ++ "'..."))],
      Raise e)) /\
  (forall check_login,
   handle_jm_status env self check_login event =
     ([SBase (AReply (reply_target event)
         (py_strip (at_user_of event ++ " 正在检查登录状态...")))], Raise e)).
Proof.
  intros Hl Hs. split; [|split].
  - intros Char is_digit is_space encode group1 Hsd Hne.
    unfold handle_jm_command. rewrite Hl, (findall_strip Char is_digit is_space Hsd).
    simpl. destruct (findall_digits Char is_digit group1); [congruence|].
    unfold send_reply, call, bind. rewrite Hs. reflexivity.
  - intros group1 Hq. unfold handle_jm_search. rewrite Hl.
    apply String.eqb_neq in Hq. rewrite Hq. simpl.
    unfold send_reply, call, bind. rewrite Hs. reflexivity.
  - intros check_login. unfold handle_jm_status. rewrite Hl. simpl.
    unfold liftM, send_reply, call, bindW. rewrite Hs. reflexivity.
Qed.

Lemma status_not_logged_in_witness :
  handle_jm_status (sample_env [] index_miss (Ret dl_failed) no_search) sample_plugin
    (Ret login_failed) sample_event =
    ([SBase (AReply (Private "10001") "正在检查登录状态..."); SCheckLogin;
      SBase (AReply (Private "10001")
        ("未登录。" ++ nl ++ "信息: cookies expired" ++ nl ++
         "请检查 config.yml 中的 'username' 和 'password' 配置，" ++
         "或 jmcomic.yml 中的 cookies 是否有效。"))], Ret tt).
Proof.
  exact (status_not_logged_in (sample_env [] index_miss (Ret dl_failed) no_search)
           sample_plugin sample_event login_failed eq_refl
           (conj (fun _ _ => eq_refl) (fun _ _ _ => eq_refl)) eq_refl).
Defined.


Lemma status_check_error_witness :
  handle_jm_status (sample_env [] index_miss (Ret dl_failed) no_search) sample_plugin
    (Raise (ExtError "timeout")) sample_event =
    ([SBase (AReply (Private "10001") "正在检查登录状态..."); SCheckLogin;
      SBase (ALog Exception "检查登录状态时出错: timeout");
      SBase (AReply (Private "10001") "检查登录状态时出错: timeout")], Ret tt).
Proof.
  exact (status_check_error (sample_env [] index_miss (Ret dl_failed) no_search)
           sample_plugin sample_event (ExtError "timeout") eq_refl
           (conj (fun _ _ => eq_refl) (fun _ _ _ => eq_refl))).
Defined.

(** "/jm 350234" with the transport down: the acknowledgement fails and no
    task is created. *)
Lemma first_reply_failure_aborts_witness :
  handle_jm_command ascii ascii_isdigit py_isspace string_of_list_ascii
    (transport_down_env [] index_miss (Ret dl_failed)) sample_plugin sample_event
    (list_ascii_of_string "350234") =
    ([AReply (Private "10001") (ack_msg "" 1)], Raise (ExtError "transport down")).
Proof.
  exact (proj1 (first_reply_failure_aborts (transport_down_env [] index_miss (Ret dl_failed))
                  sample_plugin sample_event (ExtError "transport down") eq_refl
                  (fun _ => eq_refl))
           ascii ascii_isdigit py_isspace string_of_list_ascii (list_ascii_of_string "350234")
           ascii_space_not_digit ltac:(vm_compute; discriminate)).
Defined.

(** ** [process_download]: what a task delivers and to whom *)

Lemma substring_split (s : string) (k : nat) :
  k <= String.length s ->
  s = substring 0 k s ++ substring k (String.length s - k) s.
Proof.
  revert k. induction s as [|c r IH]; intros k Hk; simpl in Hk |- *.
  - destruct k; reflexivity.
  - destruct k as [|k]; simpl.
    + f_equal. symmetry. apply substring_whole.
    + f_equal. apply IH. lia.
Qed.

Lemma endswith_split (s suf : string) :
  endswith s suf = true -> exists pre, s = pre ++ suf.
Proof.
  unfold endswith. intros H. apply andb_true_iff in H as [Hle Heq].
  apply Nat.leb_le in Hle. apply String.eqb_eq in Heq.
  exists (substring 0 (String.length s - String.length suf) s).
  pose proof (substring_split s (String.length s - String.length suf) ltac:(lia)) as E.
  replace (String.length s - (String.length s - String.length suf))
    with (String.length suf) in E by lia.
  rewrite Heq in E. exact E.
Qed.

Lemma basename_acc_app (a b acc : string) :
  basename_acc (a ++ b) acc = basename_acc b (basename_acc a acc).
Proof.
  revert acc. induction a as [|c r IH]; intros acc; simpl; [reflexivity|].
  destruct (Ascii.eqb c "/"%char); apply IH.
Qed.

Lemma basename_acc_noslash (b acc : string) :
  ~ In "/"%char (list_ascii_of_string b) -> basename_acc b acc = acc ++ b.
Proof.
  revert acc. induction b as [|c r IH]; intros acc Hn; simpl in Hn |- *.
  - symmetry. apply str_app_nil_r.
  - destruct (Ascii.eqb c "/"%char) eqn:Ec.
    + apply Ascii.eqb_eq in Ec. tauto.
    + rewrite IH by tauto. rewrite str_app_assoc. reflexivity.
Qed.

Lemma prefix_slash_noslash (b : string) :
  ~ In "/"%char (list_ascii_of_string b) -> String.prefix "/" b = false.
Proof.
  destruct b as [|c r]; intros Hn; [reflexivity|]. simpl in Hn. cbn [String.prefix].
  destruct (ascii_dec "/" c); [subst; tauto|reflexivity].
Qed.

(** [os.path.basename(os.path.join(d, b))] is [b] when [b] has no ['/']. *)
Lemma basename_join (d b : string) :
  ~ In "/"%char (list_ascii_of_string b) -> b <> "" ->
  basename (os_path_join d b) = b.
Proof.
  intros Hn Hb. unfold os_path_join, basename.
  rewrite (prefix_slash_noslash b Hn).
  destruct (String.eqb d "") eqn:Ed; [apply basename_acc_noslash, Hn|].
  destruct (endswith d "/") eqn:Es.
  - destruct (endswith_split _ _ Es) as [pre ->].
    rewrite !basename_acc_app. simpl. apply basename_acc_noslash, Hn.
  - rewrite !basename_acc_app. simpl. apply basename_acc_noslash, Hn.
Qed.

Lemma pdf_name_noslash (album_id : string) :
  ~ In "/"%char (list_ascii_of_string album_id) ->
  ~ In "/"%char (list_ascii_of_string (album_id ++ ".pdf")).
Proof.
  intros Hn. rewrite list_ascii_of_string_app. intros Hi.
  apply in_app_or in Hi as [Hi|Hi]; [tauto|].
  simpl in Hi. intuition discriminate.
Qed.

(** X12. When [<id>.pdf] is in the output directory and [id] has no ['/']
    (as every identifier the dispatcher extracts), the task announces the
    cache hit, uploads that file under the name [<id>.pdf], whatever the
    output directory is, and its completion reply names [<id>.pdf]. *)
Theorem cache_hit_file_name (env : Env) (self : Plugin) (event : MessageEvent)
    (album_id at_user : string) :
  ~ In "/"%char (list_ascii_of_string album_id) ->
  path_exists env (expected_pdf_path self album_id) = true ->
  transport_ok env ->
  uploads (trace (process_download env self event album_id at_user)) =
    [(reply_target event, expected_pdf_path self album_id, album_id ++ ".pdf")] /\
  replies (trace (process_download env self event album_id at_user)) =
    [cache_found_msg album_id;
     py_strip (at_user ++ " 漫画 " ++ album_id ++ " (" ++ album_id ++ ".pdf) 已发送完成。")].
Proof.
  intros Hn He [Hs Hu].
  assert (Hb : basename (expected_pdf_path self album_id) = album_id ++ ".pdf").
  { apply basename_join; [apply pdf_name_noslash, Hn|destruct album_id; discriminate]. }
  unfold_plugin. rewrite He, expected_pdf_path_truthy. simpl.
  rewrite !Hs, !Hu. simpl. rewrite Hb. split; [reflexivity|rewrite !str_app_assoc; reflexivity].
Qed.

(** Case analysis on every external result and every test of a task. *)
Ltac task_cases :=
  repeat (simpl;
          match goal with
          | |- context [match ?x with Ret _ => _ | Raise _ => _ end] =>
              let E := fresh "E" in destruct x eqn:E
          | |- context [match ?x with Some _ => _ | None => _ end] =>
              let E := fresh "E" in destruct x eqn:E
          | |- context [match ?x with [] => _ | _ :: _ => _ end] =>
              let E := fresh "E" in destruct x eqn:E
          | |- context [if ?b then _ else _] =>
              let E := fresh "E" in destruct b eqn:E
          end).

(** X13. Whatever the disk, the index, the library and the transport do,
    a task queries the index at most once and fetches at most once, both
    only for its own identifier, uploads at most one file, and never both
    fetches and uploads: a file is only ever delivered from the cache. *)
Theorem task_fetch_or_deliver (env : Env) (self : Plugin) (event : MessageEvent)
    (album_id at_user : string) :
  let tr := trace (process_download env self event album_id at_user) in
  (index_queries tr = [] \/ index_queries tr = [album_id]) /\
  (downloads tr = [] \/ downloads tr = [album_id]) /\
  length (uploads tr) <= 1 /\
  (downloads tr = [] \/ uploads tr = []).
Proof.
  unfold_plugin. task_cases; simpl; repeat split; auto.
Qed.

Lemma targets_spawns (ids : list string) (at_user : string) :
  targets (map (fun album_id => ASpawn album_id at_user) ids) = [].
Proof. induction ids; simpl; auto. Qed.

(** X14. Every reply and every file of a task, of [/jm] and of
    [/jm_search] goes to the chat the command came from (its group, else
    its sender). *)
Theorem writes_to_requester (env : Env) (self : Plugin) (event : MessageEvent) :
  (forall album_id at_user,
   Forall (fun t => t = reply_target event)
     (targets (trace (process_download env self event album_id at_user)))) /\
  (forall (Char : Type) is_digit is_space encode (group1 : list Char),
   Forall (fun t => t = reply_target event)
     (targets (trace (handle_jm_command Char is_digit is_space encode env self event group1)))) /\
  (forall group1,
   Forall (fun t => t = reply_target event)
     (targets (trace (handle_jm_search env self event group1)))).
Proof.
  split; [|split].
  - intros album_id at_user. unfold_plugin. task_cases; repeat constructor.
  - intros Char is_digit is_space encode group1.
    unfold handle_jm_command, send_reply, call, bind, trace.
    destruct (negb (jm_loaded self)); [repeat constructor|].
    destruct (findall_digits Char is_digit (strip_chars Char is_space group1));
      [repeat constructor|].
    destruct (bot_send _ _ _); simpl; [|repeat constructor].
    rewrite spawn_all_trace. simpl. rewrite targets_spawns. repeat constructor.
  - intros group1. unfold handle_jm_search, send_reply, try_except, log, call, bind, trace.
    task_cases; repeat constructor.
Qed.

Lemma cache_hit_file_name_witness :
  let env := sample_env ["/out/350234.pdf"] index_miss (Ret dl_failed) no_search in
  uploads (trace (process_download env sample_plugin sample_event "350234" "")) =
    [(Private "10001", "/out/350234.pdf", "350234.pdf")] /\
  replies (trace (process_download env sample_plugin sample_event "350234" "")) =
    [cache_found_msg "350234"; "漫画 350234 (350234.pdf) 已发送完成。"].
Proof.
  exact (cache_hit_file_name
           (sample_env ["/out/350234.pdf"] index_miss (Ret dl_failed) no_search)
           sample_plugin sample_event "350234" ""
           ltac:(simpl; intuition discriminate) eq_refl
           (conj (fun _ _ => eq_refl) (fun _ _ _ => eq_refl))).
Defined.

(** ** [__init__] with an empty download directory *)

(** X15. A plugin configuration whose [download_dir] is the empty string
    makes [__init__] raise ([os.makedirs("")]) whatever else happens: the
    plugin never completes its initialisation and no client is created. *)
Theorem init_empty_download_dir (config : Config) (ienv : InitEnv) :
  cfg_get config "download_dir" default_download_dir = "" ->
  (exists e, snd (plugin_init true config ienv) = Raise e) /\
  (forall o, ~ In (INewClient o) (fst (plugin_init true config ienv))).
Proof.
  intros Hd. unfold plugin_init, py_makedirs, ilog, callW, bindW, retW.
  rewrite Hd. simpl.
  destruct (_ =? "") eqn:E1; simpl; [split; [eauto|intros o [H|[]]; discriminate H]|].
  destruct (ie_makedirs ienv _) as [[]|e]; simpl;
    [|split; [eauto|intros o [H|[]]; discriminate H]].
  destruct (ie_load ienv _) as [loaded|e]; simpl;
    split; eauto; intros o; simpl; intuition discriminate.
Qed.

Lemma init_empty_download_dir_witness :
  snd (plugin_init true [("download_dir", "")] sample_ienv) =
    Raise (ExtError "[Errno 2] No such file or directory: ''").
Proof.
  destruct (init_empty_download_dir [("download_dir", "")] sample_ienv eq_refl) as [[e He] _].
  rewrite He. vm_compute in He. exact (eq_sym He).
Defined.
